(** * Order and escrow lifecycle of the escrow marketplace

    A shallow embedding of the Express/Mongoose handlers that create an
    order, confirm and approve its delivery, request a refund and resolve a
    dispute, together with the Mongoose schemas they act on:

    - [routes/orders.js]  : [createOrder], [confirmDelivery],
      [approveDelivery], [requestRefund], [canRequestRefund];
    - [routes/admin.js]   : [resolveDispute];
    - [models/Order.js]   : the order schema, its [pre('save')] hook and
      [setEscrowAutoRelease];
    - [models/Product.js], [models/Seller.js] : the fields read here.

    Conventions.  A stock level or a quantity is an integer ([Z]); a
    stored [Date] is its time value, the milliseconds since the epoch
    ([Z]); an [ObjectId] is a natural number ([N]).  Amounts of money are
    JavaScript numbers, that is doubles, and a price may have decimals;
    they are carried here as integers ([Z], whole taka); the sums and the
    free-shipping test of [createOrder] are written as the code has them,
    and no statement below is about their values: an amount is copied, or
    compared with zero.  A handler is a function from the state of the
    world (the three collections, the wall clock and [process.env]) to a
    response and the next state.  The caller's identity is what the
    authentication middleware leaves in [req.user] / [req.seller]. *)

From Stdlib Require Import ZArith QArith Lia DecimalString.
From stdpp Require Import gmap strings list fin_maps.

Open Scope Z_scope.

(** ** JavaScript numbers, strings and dates *)

Module Js.

(** The values that meet in [getDate() + (process.env.X || 7)]. *)
Inductive Value :=
| Number (n : Z)
| String (s : string).

(** [process.env.X || d]: an unset variable and the empty string are
    falsy, any other string is returned as it is. *)
Definition env_or (x : option string) (d : Z) : Value :=
  match x with
  | None => Number d
  | Some s => if decide (s = "") then Number d else String s
  end.

Definition NumberToString (n : Z) : string :=
  NilEmpty.string_of_int (Z.to_int n).

(** [StringToNumber] on a string of decimal digits; [None] is [NaN].
    Only strings of decimal digits are read: a string with a sign, a
    fraction, an exponent or blanks, which JavaScript may read as a
    number, is [None] here as well. *)
Definition StringToNumber (s : string) : option Z :=
  option_map Z.of_uint (NilEmpty.uint_of_string s).

Definition ToNumber (v : Value) : option Z :=
  match v with
  | Number n => Some n
  | String s => StringToNumber s
  end.

(** [a + v] for a number [a]: addition with a number, concatenation
    with a string. *)
Definition add (a : Z) (v : Value) : Value :=
  match v with
  | Number n => Number (a + n)
  | String s => String (NumberToString a ++ s)
  end.

Definition msPerDay : Z := 86400000.

(** [Day(t)], the day number of a time value. *)
Definition Day (t : Z) : Z := t / msPerDay.

(** [DateFromTime(t)]: the day of the month (1..31) of the proleptic
    Gregorian date of [Day t], by era / day-of-era / year-of-era. *)
Definition DateFromTime (t : Z) : Z :=
  let z := Day t + 719468 in
  let era := z / 146097 in
  let doe := z - era * 146097 in
  let yoe := (doe - doe / 1460 + doe / 36524 - doe / 146096) / 365 in
  let doy := doe - (365 * yoe + yoe / 4 - yoe / 100) in
  let mp := (5 * doy + 2) / 153 in
  doy - (153 * mp + 2) / 5 + 1.

(** The zone of the server, as [LocalTZA(t, isUTC)]: the offset of local
    time from UTC, in milliseconds, in effect at the UTC time value [t]
    ([isUTC] true) or at the local time value [t] ([isUTC] false).  With
    daylight saving the offset changes with [t]. *)
Definition Zone : Type := Z → bool → Z.

Definition LocalTime (tza : Zone) (t : Z) : Z := t + tza t true.

Definition UTC (tza : Zone) (t : Z) : Z := t - tza t false.

(** [Date.prototype.getDate]: the day of the month in local time. *)
Definition getDate (tza : Zone) (t : Z) : Z :=
  DateFromTime (LocalTime tza t).

(** [Date.prototype.setDate(v)]: in local time, day [ToNumber v] of the
    month of [t] at the same time of day, days beyond the end of the month
    running into the following months (the first of the month is
    [DateFromTime - 1] days before); the result is that local time taken
    back to UTC.  [None] is an invalid date.  Time values are taken to
    stay within the range of a [Date], where [TimeClip] changes nothing. *)
Definition setDate (tza : Zone) (t : Z) (v : Value) : option Z :=
  match ToNumber v with
  | Some dt =>
      let local := LocalTime tza t in
      Some (UTC tza (local + (dt - DateFromTime local) * msPerDay))
  | None => None
  end.

End Js.

(** ** Schemas *)

Abbreviation ObjectId := N (only parsing).

Inductive VerificationStatus :=
| vs_pending | vs_under_review | vs_verified | vs_rejected.

Inductive ProductStatus :=
| ps_active | ps_inactive | ps_out_of_stock | ps_discontinued.

Inductive OrderStatus :=
| pending_payment | payment_confirmed | processing | shipped
| out_for_delivery | delivered | cancelled | refunded.

Inductive EscrowStatus :=
| es_pending | held | released_to_seller | refunded_to_customer.

Inductive DisputeStatus :=
| ds_open | ds_under_review | ds_resolved | ds_closed.

Inductive PaymentStatus :=
| pay_pending | pay_completed | pay_failed | pay_refunded.

Inductive NoteType := nt_customer | nt_seller | nt_admin | nt_system.

#[global] Instance VerificationStatus_eq_dec : EqDecision VerificationStatus.
Proof. solve_decision. Defined.
#[global] Instance ProductStatus_eq_dec : EqDecision ProductStatus.
Proof. solve_decision. Defined.
#[global] Instance OrderStatus_eq_dec : EqDecision OrderStatus.
Proof. solve_decision. Defined.
#[global] Instance EscrowStatus_eq_dec : EqDecision EscrowStatus.
Proof. solve_decision. Defined.
#[global] Instance DisputeStatus_eq_dec : EqDecision DisputeStatus.
Proof. solve_decision. Defined.

(** [models/Seller.js], the two fields the order flow reads. *)
Record Seller := {
  verificationStatus : VerificationStatus;
  isActive : bool
}.

(** [models/Product.js]. *)
Record Product := {
  p_name : string;
  p_sellerId : ObjectId;
  p_price : Z;
  p_images : list string;          (* the [url] of each image *)
  p_stock : Z;
  p_sku : option string;
  p_status : ProductStatus
}.

(** [models/Order.js]. *)
Record ProductSnapshot := {
  snap_name : string;
  snap_image : option string;
  snap_sku : option string
}.

Record OrderItem := {
  productId : ObjectId;
  quantity : Z;
  price : Z;
  productSnapshot : ProductSnapshot
}.

Record Pricing := {
  subtotal : Z;
  shippingCost : Z;
  tax : Z;
  discount : Z;
  total : Z;
  currency : string
}.

Record ShippingAddress := {
  sa_name : string;
  sa_phone : string;
  sa_street : string;
  sa_city : string;
  sa_division : string;
  sa_postalCode : string
}.

Record Escrow := {
  e_status : EscrowStatus;
  holdUntil : option Z;
  releaseRequested : option bool;
  releaseRequestedAt : option Z;
  customerApproval : bool;
  customerApprovalAt : option Z;
  autoReleaseAt : option Z;
  releasedAt : option Z;
  releasedBy : option ObjectId
}.

Record Payment := {
  pay_method : string;
  pay_status : PaymentStatus
}.

Record Shipping := {
  shippedAt : option Z;
  deliveredAt : option Z
}.

Record Dispute := {
  isDisputed : bool;
  d_reason : option string;
  d_status : option DisputeStatus;
  resolvedBy : option ObjectId;
  resolution : option string;
  d_createdAt : option Z;
  resolvedAt : option Z
}.

Record Refund := {
  isRefunded : bool;
  r_reason : option string;
  amount : option Z;
  requestedAt : option Z;
  approvedAt : option Z;
  processedAt : option Z;
  refundMethod : option string;
  adminNotes : option string
}.

Record Note := {
  n_type : NoteType;
  n_message : string;
  n_createdBy : ObjectId;
  n_createdAt : Z
}.

Record Order := {
  customerId : ObjectId;
  sellerId : ObjectId;
  items : list OrderItem;
  pricing : Pricing;
  shippingAddress : ShippingAddress;
  status : OrderStatus;
  escrow : Escrow;
  payment : Payment;
  shipping : Shipping;
  dispute : Dispute;
  refund : Refund;
  notes : list Note;
  createdAt : Z;
  updatedAt : Z
}.

(** Assignments to a path of the document. *)

Definition set_status (s : OrderStatus) (o : Order) : Order :=
  {| customerId := customerId o; sellerId := sellerId o; items := items o;
     pricing := pricing o; shippingAddress := shippingAddress o;
     status := s; escrow := escrow o; payment := payment o;
     shipping := shipping o; dispute := dispute o; refund := refund o;
     notes := notes o; createdAt := createdAt o; updatedAt := updatedAt o |}.

Definition set_escrow (e : Escrow) (o : Order) : Order :=
  {| customerId := customerId o; sellerId := sellerId o; items := items o;
     pricing := pricing o; shippingAddress := shippingAddress o;
     status := status o; escrow := e; payment := payment o;
     shipping := shipping o; dispute := dispute o; refund := refund o;
     notes := notes o; createdAt := createdAt o; updatedAt := updatedAt o |}.

Definition set_shipping (s : Shipping) (o : Order) : Order :=
  {| customerId := customerId o; sellerId := sellerId o; items := items o;
     pricing := pricing o; shippingAddress := shippingAddress o;
     status := status o; escrow := escrow o; payment := payment o;
     shipping := s; dispute := dispute o; refund := refund o;
     notes := notes o; createdAt := createdAt o; updatedAt := updatedAt o |}.

Definition set_dispute (d : Dispute) (o : Order) : Order :=
  {| customerId := customerId o; sellerId := sellerId o; items := items o;
     pricing := pricing o; shippingAddress := shippingAddress o;
     status := status o; escrow := escrow o; payment := payment o;
     shipping := shipping o; dispute := d; refund := refund o;
     notes := notes o; createdAt := createdAt o; updatedAt := updatedAt o |}.

Definition set_refund (r : Refund) (o : Order) : Order :=
  {| customerId := customerId o; sellerId := sellerId o; items := items o;
     pricing := pricing o; shippingAddress := shippingAddress o;
     status := status o; escrow := escrow o; payment := payment o;
     shipping := shipping o; dispute := dispute o; refund := r;
     notes := notes o; createdAt := createdAt o; updatedAt := updatedAt o |}.

Definition set_notes (n : list Note) (o : Order) : Order :=
  {| customerId := customerId o; sellerId := sellerId o; items := items o;
     pricing := pricing o; shippingAddress := shippingAddress o;
     status := status o; escrow := escrow o; payment := payment o;
     shipping := shipping o; dispute := dispute o; refund := refund o;
     notes := n; createdAt := createdAt o; updatedAt := updatedAt o |}.

Definition set_updatedAt (t : Z) (o : Order) : Order :=
  {| customerId := customerId o; sellerId := sellerId o; items := items o;
     pricing := pricing o; shippingAddress := shippingAddress o;
     status := status o; escrow := escrow o; payment := payment o;
     shipping := shipping o; dispute := dispute o; refund := refund o;
     notes := notes o; createdAt := createdAt o; updatedAt := t |}.

Definition set_deliveredAt (t : Z) (s : Shipping) : Shipping :=
  {| shippedAt := shippedAt s; deliveredAt := Some t |}.

Definition set_e_status (s : EscrowStatus) (e : Escrow) : Escrow :=
  {| e_status := s; holdUntil := holdUntil e;
     releaseRequested := releaseRequested e;
     releaseRequestedAt := releaseRequestedAt e;
     customerApproval := customerApproval e;
     customerApprovalAt := customerApprovalAt e;
     autoReleaseAt := autoReleaseAt e; releasedAt := releasedAt e;
     releasedBy := releasedBy e |}.

Definition set_customerApproval (b : bool) (t : Z) (e : Escrow) : Escrow :=
  {| e_status := e_status e; holdUntil := holdUntil e;
     releaseRequested := releaseRequested e;
     releaseRequestedAt := releaseRequestedAt e;
     customerApproval := b; customerApprovalAt := Some t;
     autoReleaseAt := autoReleaseAt e; releasedAt := releasedAt e;
     releasedBy := releasedBy e |}.

Definition set_autoReleaseAt (t : Z) (e : Escrow) : Escrow :=
  {| e_status := e_status e; holdUntil := holdUntil e;
     releaseRequested := releaseRequested e;
     releaseRequestedAt := releaseRequestedAt e;
     customerApproval := customerApproval e;
     customerApprovalAt := customerApprovalAt e;
     autoReleaseAt := Some t; releasedAt := releasedAt e;
     releasedBy := releasedBy e |}.

Definition set_released (t : Z) (by_ : ObjectId) (e : Escrow) : Escrow :=
  {| e_status := e_status e; holdUntil := holdUntil e;
     releaseRequested := releaseRequested e;
     releaseRequestedAt := releaseRequestedAt e;
     customerApproval := customerApproval e;
     customerApprovalAt := customerApprovalAt e;
     autoReleaseAt := autoReleaseAt e; releasedAt := Some t;
     releasedBy := Some by_ |}.

Definition set_resolved (res : string) (by_ : ObjectId) (t : Z) (d : Dispute)
  : Dispute :=
  {| isDisputed := isDisputed d; d_reason := d_reason d;
     d_status := Some ds_resolved; resolvedBy := Some by_;
     resolution := Some res; d_createdAt := d_createdAt d;
     resolvedAt := Some t |}.

Definition set_stock (n : Z) (p : Product) : Product :=
  {| p_name := p_name p; p_sellerId := p_sellerId p; p_price := p_price p;
     p_images := p_images p; p_stock := n; p_sku := p_sku p;
     p_status := p_status p |}.

(** ** The world: collections, wall clock, environment *)

(** The wall clock.  [time] is what the next [new Date()] or [Date.now()]
    returns; [ahead] lists the time that passes before each later read. *)
Record Clock := {
  time : Z;
  ahead : list Z
}.

Definition tick (c : Clock) : Clock :=
  match ahead c with
  | [] => c
  | d :: ds => {| time := time c + d; ahead := ds |}
  end.

(** [process.env.ESCROW_HOLD_DAYS] and the zone of the server. *)
Record Env := {
  ESCROW_HOLD_DAYS : option string;
  LocalTZA : Js.Zone
}.

Record World := {
  products : gmap N Product;
  sellers : gmap N Seller;
  orders : gmap N Order;
  clock : Clock;
  env : Env
}.

Definition set_products (m : gmap N Product) (w : World) : World :=
  {| products := m; sellers := sellers w; orders := orders w;
     clock := clock w; env := env w |}.

Definition set_orders (m : gmap N Order) (w : World) : World :=
  {| products := products w; sellers := sellers w; orders := m;
     clock := clock w; env := env w |}.

Definition set_clock (c : Clock) (w : World) : World :=
  {| products := products w; sellers := sellers w; orders := orders w;
     clock := c; env := env w |}.

(** ** Responses and the handler monad *)

Inductive Code :=
| VALIDATION_FAILED
| PRODUCT_UNAVAILABLE
| INSUFFICIENT_STOCK
| ORDER_NOT_FOUND
| INVALID_STATUS
| REFUND_NOT_ALLOWED
| DISPUTE_NOT_FOUND
| INTERNAL_ERROR.

(** [Ok a] is the 2xx answer of the handler, [Fail st c] the
    [res.status(st).json({code: c})] it returns early with; 500 is the
    [catch] branch. *)
Inductive Response (A : Type) :=
| Ok (a : A)
| Fail (st : Z) (c : Code).
Arguments Ok {A} a.
Arguments Fail {A} st c.

Definition is_ok {A} (r : Response A) : bool :=
  match r with Ok _ => true | Fail _ _ => false end.

Definition Handler (A : Type) : Type := World → Response A * World.

Definition ret {A} (a : A) : Handler A := λ w, (Ok a, w).

(** Sequencing: an early [return res.status(...)] skips what follows. *)
Definition bind {A B} (m : Handler A) (f : A → Handler B) : Handler B :=
  λ w, match m w with
       | (Ok a, w') => f a w'
       | (Fail st c, w') => (Fail st c, w')
       end.

Notation "x <~ m ;; k" := (bind m (λ x, k))
  (at level 100, m at next level, right associativity).

Definition fail {A} (st : Z) (c : Code) : Handler A := λ w, (Fail st c, w).

Definition get_world : Handler World := λ w, (Ok w, w).

(** [new Date()] / [Date.now()]. *)
Definition new_Date : Handler Z :=
  λ w, (Ok (time (clock w)), set_clock (tick (clock w)) w).

(** [order.save()] on a stored order: [orderSchema.pre('save')] and the
    write of the document.  A stored order has its [orderNumber] and
    satisfied the validators of the schema when it was stored, and the
    handlers assign to its paths values of their type only: the validation
    that runs before the hook refuses nothing, and the hook only stamps
    [updatedAt]. *)
Definition save (id : ObjectId) (o : Order) : Handler Order :=
  t <~ new_Date;;
  let o' := set_updatedAt t o in
  λ w, (Ok o', set_orders (<[id := o']> (orders w)) w).

Definition findOrder (id : ObjectId) : Handler (option Order) :=
  λ w, (Ok (orders w !! id), w).

(** [Product.findById(id).populate({path: 'sellerId', match})]: the
    product, its [sellerId] replaced by the seller document when that
    document exists and satisfies [match_], by [null] otherwise. *)
Definition findProduct_populate (w : World) (match_ : Seller → bool)
    (id : ObjectId) : option (Product * option Seller) :=
  match products w !! id with
  | None => None
  | Some p =>
      Some (p, match sellers w !! p_sellerId p with
               | Some s => if match_ s then Some s else None
               | None => None
               end)
  end.

(** ** express-validator chains *)

Definition notEmpty (s : string) : bool := negb (String.eqb s "").

Definition paymentMethods : list string :=
  ["stripe"; "sslcommerz"; "bkash"; "nagad"; "rocket"]%string.

(** ** Saving a new order *)

(** A document made by [new Order({...})]: the paths of an [Order],
    and [orderNumber], which is there only if the object given to the
    constructor had one. *)
Record NewOrder := {
  orderNumber : option string;
  doc : Order
}.

(** [required: true] on a String path: an absent value and the empty
    string are refused. *)
Definition required (x : option string) : bool :=
  match x with
  | Some s => notEmpty s
  | None => false
  end.

(** The [enum] of [payment.method]. *)
Definition payment_methods_enum : list string :=
  paymentMethods ++ ["bank_transfer"]%string.

(** The validators of [orderSchema] that a value of type [NewOrder] can
    fail: [orderNumber] is required, the quantity of a line is at least
    1, the six paths of the shipping address are required, the payment
    method is one of the enum. *)
Definition validate_order (d : NewOrder) : bool :=
  required (orderNumber d)
  && forallb (λ oi, 1 <=? quantity oi) (items (doc d))
  && notEmpty (sa_name (shippingAddress (doc d)))
  && notEmpty (sa_phone (shippingAddress (doc d)))
  && notEmpty (sa_street (shippingAddress (doc d)))
  && notEmpty (sa_city (shippingAddress (doc d)))
  && notEmpty (sa_division (shippingAddress (doc d)))
  && notEmpty (sa_postalCode (shippingAddress (doc d)))
  && bool_decide (pay_method (payment (doc d)) ∈ payment_methods_enum).

(** [order.save()] on a new document.  Mongoose validates the document
    before it calls the hooks that the schema registers with
    [pre('save')]: a document that fails a validator is rejected, the hook
    does not run, and the handler's [catch] answers 500.  The hook that
    would give the order its number, [if (!this.orderNumber) ...], is
    therefore reached only by documents that have one; what is left of it
    is the stamp on [updatedAt], as in [save].  An identifier in use is a
    duplicate key. *)
Definition save_new (id : ObjectId) (d : NewOrder) : Handler Order :=
  if negb (validate_order d) then fail 500 INTERNAL_ERROR else
  found <~ findOrder id;;
  match found with
  | Some _ => fail 500 INTERNAL_ERROR
  | None => save id (doc d)
  end.

Record ReqItem := {
  r_productId : ObjectId;
  r_quantity : Z
}.

(** [req.body] of [POST /api/orders].  The handler destructures
    [items], [shippingAddress] and [paymentMethod]; [b_pricing] stands for
    whatever else a client puts in the body. *)
Record CreateOrderBody := {
  b_items : list ReqItem;
  b_shippingAddress : ShippingAddress;
  b_paymentMethod : string;
  b_pricing : option Pricing
}.

Definition validate_createOrder (b : CreateOrderBody) : bool :=
  bool_decide (1 ≤ length (b_items b))%nat
  && forallb (λ it, 1 <=? r_quantity it) (b_items b)
  && notEmpty (sa_name (b_shippingAddress b))
  && notEmpty (sa_phone (b_shippingAddress b))
  && notEmpty (sa_street (b_shippingAddress b))
  && notEmpty (sa_city (b_shippingAddress b))
  && notEmpty (sa_division (b_shippingAddress b))
  && notEmpty (sa_postalCode (b_shippingAddress b))
  && bool_decide (b_paymentMethod b ∈ paymentMethods).

(** ** [POST /api/orders] *)

Definition verified_active (s : Seller) : bool :=
  bool_decide (verificationStatus s = vs_verified) && isActive s.

(** The object pushed on [orderItems]: the request's product and
    quantity, the product's price and display fields as they are now. *)
Definition line_item (product : Product) (item : ReqItem) : OrderItem :=
  {| productId := r_productId item;
     quantity := r_quantity item;
     price := p_price product;
     productSnapshot :=
       {| snap_name := p_name product;
          snap_image := head (p_images product);
          snap_sku := p_sku product |} |}.

(** The loop [for (const item of items)] with its two accumulators. *)
Fixpoint validate_items (w : World) (its : list ReqItem)
    (orderItems : list OrderItem) (subtotal : Z)
  : Response (list OrderItem * Z) :=
  match its with
  | [] => Ok (orderItems, subtotal)
  | item :: rest =>
      match findProduct_populate w verified_active (r_productId item) with
      | Some (product, Some _) =>
          if bool_decide (p_status product ≠ ps_active) then
            Fail 400 PRODUCT_UNAVAILABLE
          else if p_stock product <? r_quantity item then
            Fail 400 INSUFFICIENT_STOCK
          else
            let itemTotal := p_price product * r_quantity item in
            validate_items w rest
              (orderItems ++ [line_item product item])
              (subtotal + itemTotal)
      | _ => Fail 400 PRODUCT_UNAVAILABLE
      end
  end.

(** [Product.findByIdAndUpdate(id, {$inc: {stock: -quantity}})]. *)
Definition reserve_stock (m : gmap N Product) (item : OrderItem)
  : gmap N Product :=
  alter (λ p, set_stock (p_stock p + - quantity item) p) (productId item) m.

(** [new Order({...})] as the handler calls it, with the schema defaults
    of the paths left out; the object it is given has no [orderNumber],
    and that path has no default. *)
Definition new_Order (customer seller : ObjectId) (its : list OrderItem)
    (pr : Pricing) (addr : ShippingAddress) (method : string)
    (tc tu : Z) : NewOrder :=
  {| orderNumber := None;
     doc :=
  {| customerId := customer;
     sellerId := seller;
     items := its;
     pricing := pr;
     shippingAddress := addr;
     status := pending_payment;
     escrow := {| e_status := es_pending; holdUntil := None;
                  releaseRequested := None; releaseRequestedAt := None;
                  customerApproval := false; customerApprovalAt := None;
                  autoReleaseAt := None; releasedAt := None;
                  releasedBy := None |};
     payment := {| pay_method := method; pay_status := pay_pending |};
     shipping := {| shippedAt := None; deliveredAt := None |};
     dispute := {| isDisputed := false; d_reason := None; d_status := None;
                   resolvedBy := None; resolution := None;
                   d_createdAt := None; resolvedAt := None |};
     refund := {| isRefunded := false; r_reason := None; amount := None;
                  requestedAt := None; approvedAt := None;
                  processedAt := None; refundMethod := None;
                  adminNotes := None |};
     notes := [];
     createdAt := tc;
     updatedAt := tu |} |}.

(** [user] is [req.user._id]; [_id] is the identifier Mongoose gives the
    new document (an insert under an identifier in use is refused). *)
Definition createOrder (user : ObjectId) (body : CreateOrderBody)
    (_id : ObjectId) : Handler Order :=
  if negb (validate_createOrder body) then fail 400 VALIDATION_FAILED else
  w <~ get_world;;
  checked <~ (λ w', (validate_items w (b_items body) [] 0, w'));;
  let orderItems := checked.1 in
  let subtotal := checked.2 in
  let shippingCost := if 1000 <? subtotal then 0 else 60 in
  let tax := 0 in
  let total := subtotal + shippingCost + tax in
  firstProduct <~
    match b_items body with
    | item0 :: _ =>
        match findProduct_populate w (λ _, true) (r_productId item0) with
        | Some (p, Some _) => ret p
        | _ => fail 500 INTERNAL_ERROR
        end
    | [] => fail 500 INTERNAL_ERROR
    end;;
  tc <~ new_Date;;
  tu <~ new_Date;;
  let order :=
    new_Order user (p_sellerId firstProduct) orderItems
      {| subtotal := subtotal; shippingCost := shippingCost; tax := tax;
         discount := 0; total := total; currency := "BDT" |}
      (b_shippingAddress body) (b_paymentMethod body) tc tu in
  order <~ save_new _id order;;
  λ w', (Ok order,
         set_products (fold_left reserve_stock orderItems (products w')) w').

(** ** [orderSchema.methods.setEscrowAutoRelease] *)

Definition setEscrowAutoRelease (order : Order) : Handler Order :=
  if bool_decide (status order = delivered)
     && negb (bool_decide (is_Some (autoReleaseAt (escrow order)))) then
    releaseDate <~ new_Date;;
    w <~ get_world;;
    let tza := LocalTZA (env w) in
    match Js.setDate tza releaseDate
            (Js.add (Js.getDate tza releaseDate)
                    (Js.env_or (ESCROW_HOLD_DAYS (env w)) 7)) with
    | Some t => ret (set_escrow (set_autoReleaseAt t (escrow order)) order)
    | None => fail 500 INTERNAL_ERROR   (* an invalid date is not saved *)
    end
  else ret order.

(** ** [PATCH /api/orders/:id/confirm-delivery]; [seller] is
    [req.seller._id]. *)
Definition confirmDelivery (seller : ObjectId) (id : ObjectId)
  : Handler Order :=
  found <~ findOrder id;;
  match found with
  | None => fail 404 ORDER_NOT_FOUND
  | Some order =>
      if negb (bool_decide (sellerId order = seller)) then
        fail 404 ORDER_NOT_FOUND
      else if bool_decide (status order ≠ shipped) then
        fail 400 INVALID_STATUS
      else
        let order := set_status delivered order in
        t <~ new_Date;;
        let order := set_shipping (set_deliveredAt t (shipping order)) order in
        let order := set_escrow (set_e_status held (escrow order)) order in
        order <~ setEscrowAutoRelease order;;
        save id order
  end.

(** ** [PATCH /api/orders/:id/approve-delivery]; [user] is
    [req.user._id]. *)
Definition approveDelivery (user : ObjectId) (id : ObjectId)
  : Handler Order :=
  found <~ findOrder id;;
  match found with
  | None => fail 404 ORDER_NOT_FOUND
  | Some order =>
      if negb (bool_decide (customerId order = user)) then
        fail 404 ORDER_NOT_FOUND
      else if bool_decide (status order ≠ delivered)
              || bool_decide (e_status (escrow order) ≠ held) then
        fail 400 INVALID_STATUS
      else
        let e := set_e_status released_to_seller (escrow order) in
        t1 <~ new_Date;;
        let e := set_customerApproval true t1 e in
        t2 <~ new_Date;;
        let e := set_released t2 user e in
        save id (set_escrow e order)
  end.

(** ** [canRequestRefund] *)

Definition canRequestRefund (order : Order) : Handler bool :=
  let refundWindow := 30 in
  match deliveredAt (shipping order) with
  | None => ret false
  | Some deliveryDate =>
      now_ <~ new_Date;;
      let daysSinceDelivery :=
        (inject_Z (now_ - deliveryDate)
         / inject_Z (1000 * 60 * 60 * 24))%Q in
      ret (Qle_bool daysSinceDelivery (inject_Z refundWindow)
           && bool_decide (e_status (escrow order) = held))
  end.

(** [x || ''] on an optional string. *)
Definition or_empty (x : option string) : string := default ""%string x.

(** ** [POST /api/orders/:id/request-refund] *)
Definition requestRefund (user : ObjectId) (id : ObjectId)
    (reason : string) (description : option string) : Handler Order :=
  if negb (notEmpty reason) then fail 400 VALIDATION_FAILED else
  found <~ findOrder id;;
  match found with
  | None => fail 404 ORDER_NOT_FOUND
  | Some order =>
      if negb (bool_decide (customerId order = user)) then
        fail 404 ORDER_NOT_FOUND
      else
        can <~ canRequestRefund order;;
        if negb can then fail 400 REFUND_NOT_ALLOWED else
        t <~ new_Date;;
        let order :=
          set_refund
            {| isRefunded := false; r_reason := Some reason;
               amount := Some (total (pricing order));
               requestedAt := Some t; approvedAt := None;
               processedAt := None; refundMethod := None;
               adminNotes := None |} order in
        tn <~ new_Date;;
        let order :=
          set_notes
            (notes order ++
             [{| n_type := nt_customer;
                 n_message := ("Refund requested: " ++ reason ++ ". "
                               ++ or_empty description)%string;
                 n_createdBy := user; n_createdAt := tn |}]) order in
        save id order
  end.

(** ** [PATCH /api/admin/disputes/:orderId/resolve]; [admin] is
    [req.user._id], [refundAmount] is absent or a number. *)

Definition validate_resolve (resolution_ : string) (refundAmount : option Z)
  : bool :=
  notEmpty resolution_
  && match refundAmount with Some a => 0 <=? a | None => true end.

(** [refundAmount > 0]; [undefined > 0] is false. *)
Definition positive_amount (refundAmount : option Z) : bool :=
  match refundAmount with Some a => 0 <? a | None => false end.

Definition resolveDispute (admin : ObjectId) (orderId : ObjectId)
    (resolution_ : string) (refundAmount : option Z)
    (adminNotes_ : option string) : Handler Order :=
  if negb (validate_resolve resolution_ refundAmount) then
    fail 400 VALIDATION_FAILED
  else
  found <~ findOrder orderId;;
  match found with
  | None => fail 404 DISPUTE_NOT_FOUND
  | Some order =>
      if negb (isDisputed (dispute order)) then fail 404 DISPUTE_NOT_FOUND
      else
        t <~ new_Date;;
        let order :=
          set_dispute (set_resolved resolution_ admin t (dispute order))
                      order in
        order <~
          (if positive_amount refundAmount then
             t1 <~ new_Date;;
             t2 <~ new_Date;;
             t3 <~ new_Date;;
             let order :=
               set_refund
                 {| isRefunded := true;
                    r_reason := Some "Admin dispute resolution"%string;
                    amount := refundAmount;
                    requestedAt := Some t1; approvedAt := Some t2;
                    processedAt := Some t3; refundMethod := None;
                    adminNotes := adminNotes_ |} order in
             ret (set_escrow
                    (set_e_status refunded_to_customer (escrow order))
                    order)
           else
             let e := set_e_status released_to_seller (escrow order) in
             t1 <~ new_Date;;
             ret (set_escrow (set_released t1 admin e) order));;
        tn <~ new_Date;;
        let order :=
          set_notes
            (notes order ++
             [{| n_type := nt_admin;
                 n_message :=
                   ("Dispute resolved: " ++ resolution_ ++
                    match adminNotes_ with
                    | Some s => if String.eqb s "" then ""
                                else " Notes: " ++ s
                    | None => ""
                    end)%string;
                 n_createdBy := admin; n_createdAt := tn |}]) order in
        save orderId order
  end.

(** ** The vocabulary of the specification *)

(** The product's seller exists, is verified and is active. *)
Definition seller_verified_active (w : World) (p : Product) : Prop :=
  ∃ s, sellers w !! p_sellerId p = Some s
       ∧ verificationStatus s = vs_verified ∧ isActive s = true.

(** ProductUnavailable: no such product, or a product that is not active,
    or one whose seller is not verified and active. *)
Definition unavailable (w : World) (it : ReqItem) : Prop :=
  ∀ p, products w !! r_productId it = Some p →
       p_status p ≠ ps_active ∨ ¬ seller_verified_active w p.

(** InsufficientStock: the requested quantity exceeds the stock. *)
Definition insufficient (w : World) (it : ReqItem) : Prop :=
  ∃ p, products w !! r_productId it = Some p ∧ p_stock p < r_quantity it.

Definition eligible (w : World) (it : ReqItem) : Prop :=
  ∃ p, products w !! r_productId it = Some p
       ∧ p_status p = ps_active
       ∧ seller_verified_active w p
       ∧ r_quantity it ≤ p_stock p.

(** The quantity of product [k] that a list of lines asks for. *)
Definition requested (k : ObjectId) (l : list OrderItem) : Z :=
  foldr (λ oi s, (if decide (productId oi = k) then quantity oi else 0) + s)
        0 l.



(** The world after the two readings of the clock that [new Order] makes
    for the defaults of [createdAt] and [updatedAt]. *)
Definition after_new_Order (w : World) : World :=
  set_clock (tick (tick (clock w))) w.


(** The legal edges of the escrow state machine. *)
Inductive legal_edge : EscrowStatus → EscrowStatus → Prop :=
| edge_hold : legal_edge es_pending held
| edge_release : legal_edge held released_to_seller
| edge_refund : legal_edge held refunded_to_customer.

Definition terminal (s : EscrowStatus) : bool :=
  match s with
  | released_to_seller | refunded_to_customer => true
  | _ => false
  end.

(** ** Sample documents used by the examples *)

Module Sample.

Definition address : ShippingAddress :=
  {| sa_name := "Rahim"; sa_phone := "01700000000";
     sa_street := "12 Lake Road"; sa_city := "Dhaka";
     sa_division := "Dhaka"; sa_postalCode := "1207" |}.

Definition verified : Seller :=
  {| verificationStatus := vs_verified; isActive := true |}.

Definition unverified : Seller :=
  {| verificationStatus := vs_pending; isActive := true |}.

Definition product (seller : ObjectId) (price_ stock_ : Z) : Product :=
  {| p_name := "Jersey"; p_sellerId := seller; p_price := price_;
     p_images := []; p_stock := stock_; p_sku := None;
     p_status := ps_active |}.

(** 2024-01-15T00:00:00Z *)
Definition jan15 : Z := 1705276800000.

Definition frozen (t : Z) : Clock := {| time := t; ahead := [] |}.

Definition default_env : Env :=
  {| ESCROW_HOLD_DAYS := None; LocalTZA := λ _ _, 0 |}.

(** An order of customer 7 with seller 10: 2 jerseys at 300. *)
Definition order (st : OrderStatus) (e : Escrow) (sh : Shipping)
    (d : Dispute) : Order :=
  {| customerId := 7%N; sellerId := 10%N;
     items := [{| productId := 1%N; quantity := 2; price := 300;
                  productSnapshot :=
                    {| snap_name := "Jersey"; snap_image := None;
                       snap_sku := None |} |}];
     pricing := {| subtotal := 600; shippingCost := 60; tax := 0;
                   discount := 0; total := 660; currency := "BDT" |};
     shippingAddress := address;
     status := st; escrow := e;
     payment := {| pay_method := "bkash"; pay_status := pay_completed |};
     shipping := sh; dispute := d;
     refund := {| isRefunded := false; r_reason := None; amount := None;
                  requestedAt := None; approvedAt := None;
                  processedAt := None; refundMethod := None;
                  adminNotes := None |};
     notes := []; createdAt := 0; updatedAt := 0 |}.

Definition escrow_in (s : EscrowStatus) (auto : option Z) : Escrow :=
  {| e_status := s; holdUntil := None; releaseRequested := None;
     releaseRequestedAt := None; customerApproval := false;
     customerApprovalAt := None; autoReleaseAt := auto;
     releasedAt := None; releasedBy := None |}.

Definition no_dispute : Dispute :=
  {| isDisputed := false; d_reason := None; d_status := None;
     resolvedBy := None; resolution := None; d_createdAt := None;
     resolvedAt := None |}.

Definition open_dispute : Dispute :=
  {| isDisputed := true; d_reason := Some "damaged"%string;
     d_status := Some ds_open; resolvedBy := None; resolution := None;
     d_createdAt := Some jan15; resolvedAt := None |}.

Definition world (ps : gmap N Product) (ss : gmap N Seller)
    (os : gmap N Order) (t : Z) (e : Env) : World :=
  {| products := ps; sellers := ss; orders := os; clock := frozen t;
     env := e |}.

(** Products 1 and 2 belong to the verified sellers 10 and 11, product 3
    to seller 12, who is not verified. *)
Definition market : World :=
  world (<[1%N := product 10 300 3]>
           (<[2%N := product 11 500 5]> (<[3%N := product 12 100 9]> ∅)))
        (<[10%N := verified]>
           (<[11%N := verified]> (<[12%N := unverified]> ∅)))
        ∅ jan15 default_env.

Definition item (p : ObjectId) (q : Z) : ReqItem :=
  {| r_productId := p; r_quantity := q |}.

Definition body (its : list ReqItem) : CreateOrderBody :=
  {| b_items := its; b_shippingAddress := address;
     b_paymentMethod := "bkash"; b_pricing := None |}.

(** Order 1: shipped by seller 10 to customer 7, escrow pending. *)
Definition shipped_order : Order :=
  order shipped (escrow_in es_pending None)
        {| shippedAt := Some 0; deliveredAt := None |} no_dispute.

(** Order 1 once delivered: escrow held, a dispute open. *)
Definition disputed_order : Order :=
  order delivered (escrow_in held (Some (jan15 + 7 * Js.msPerDay)))
        {| shippedAt := Some 0; deliveredAt := Some jan15 |} open_dispute.

(** The same order, its dispute marked closed while the escrow is still
    held. *)
Definition closed_dispute_order : Order :=
  order delivered (escrow_in held (Some (jan15 + 7 * Js.msPerDay)))
        {| shippedAt := Some 0; deliveredAt := Some jan15 |}
        {| isDisputed := true; d_reason := Some "damaged"%string;
           d_status := Some ds_closed; resolvedBy := None;
           resolution := None; d_createdAt := Some jan15;
           resolvedAt := None |}.

Definition with_order (o : Order) (e : Env) : World :=
  world ∅ ∅ (<[1%N := o]> ∅) jan15 e.

(** [ESCROW_HOLD_DAYS=7] written in the environment. *)
Definition configured_env : Env :=
  {| ESCROW_HOLD_DAYS := Some "7"%string; LocalTZA := λ _ _, 0 |}.

Definition escrow_of (id : ObjectId) (w : World) : option EscrowStatus :=
  (λ o, e_status (escrow o)) <$> orders w !! id.

End Sample.


(** ** Frames of the order handlers *)

(** From [w] to [w'] nothing but the order [id] and the clock may have
    changed. *)
Definition touches_only (id : ObjectId) (w w' : World) : Prop :=
  products w' = products w
  ∧ sellers w' = sellers w
  ∧ env w' = env w
  ∧ ∀ j, j ≠ id → orders w' !! j = orders w !! j.

(** What was fixed when the order was placed is the same in [o'], and the
    notes of [o] are the first notes of [o']. *)
Definition same_core (o o' : Order) : Prop :=
  customerId o' = customerId o
  ∧ sellerId o' = sellerId o
  ∧ items o' = items o
  ∧ pricing o' = pricing o
  ∧ shippingAddress o' = shippingAddress o
  ∧ payment o' = payment o
  ∧ createdAt o' = createdAt o
  ∧ notes o `prefix_of` notes o'.

(** Unfolds a handler down to the lookups and tests it makes. *)
Ltac run_handler :=
  unfold confirmDelivery, approveDelivery, requestRefund, resolveDispute,
    setEscrowAutoRelease, save, bind, ret, fail, findOrder, new_Date,
    get_world;
  cbv beta.

(** ** [getReturnWindow] (routes/orders.js) *)

From Stdlib Require Import Qround.

Record ReturnWindow := {
  totalDays : Z;
  remainingDays : Z;
  expired : bool
}.

(** [null] before delivery; else the whole days left of the 30. *)
Definition getReturnWindow (order : Order) : Handler (option ReturnWindow) :=
  let refundWindow := 30 in
  match deliveredAt (shipping order) with
  | None => ret None
  | Some deliveryDate =>
      now_ <~ new_Date;;
      let daysSinceDelivery :=
        Qfloor (inject_Z (now_ - deliveryDate)
                / inject_Z (1000 * 60 * 60 * 24))%Q in
      let remainingDays_ := Z.max 0 (refundWindow - daysSinceDelivery) in
      ret (Some {| totalDays := refundWindow;
                   remainingDays := remainingDays_;
                   expired := bool_decide (remainingDays_ = 0) |})
  end.

(** ** Pagination of the list routes *)

(** [(parseInt(page) - 1) * parseInt(limit)] *)
Definition skip_of (page limit : Z) : Z := (page - 1) * limit.

(** [Math.ceil(total / parseInt(limit))] *)
Definition totalPages (total limit : Z) : Z :=
  Qceiling (inject_Z total / inject_Z limit)%Q.

(** [.skip(skip).limit(limit)] on the sorted results of the query. *)
Definition page_of {A} (results : list A) (page limit : Z) : list A :=
  take (Z.to_nat limit) (drop (Z.to_nat (skip_of page limit)) results).

(** ** More sample documents *)

Module Cases.

(** Order 1 shipped, escrow held, a dispute open. *)
Definition shipped_disputed : Order :=
  Sample.order shipped (Sample.escrow_in held None)
    {| shippedAt := Some 0; deliveredAt := None |} Sample.open_dispute.

(** Order 1 shipped, and a clock that moves 5 ms between readings. *)
Definition ticking : World :=
  {| products := ∅; sellers := ∅;
     orders := <[1%N := Sample.shipped_order]> ∅;
     clock := {| time := Sample.jan15; ahead := [5; 5] |};
     env := Sample.default_env |}.

(** Order 1 shipped with a deadline already on it. *)
Definition shipped_with_deadline : Order :=
  Sample.order shipped (Sample.escrow_in es_pending (Some 42))
    {| shippedAt := Some 0; deliveredAt := None |} Sample.no_dispute.

(** A zone five hours behind UTC that puts its clocks one hour forward on
    2024-03-10 at 07:00 UTC, two o'clock local time; a local time in the
    hour that is skipped is read with the offset before the change. *)
Definition spring_forward : Js.Zone :=
  λ t isUTC,
    let change := 1710054000000 in
    let before := -18000000 in
    let after := -14400000 in
    if isUTC then (if t <? change then before else after)
    else (if t <? change + after then before else after).

(** Order 1 shipped, on a server in that zone, on 2024-03-05 at 17:00 UTC
    (noon local time). *)
Definition before_the_change : World :=
  {| products := ∅; sellers := ∅;
     orders := <[1%N := Sample.shipped_order]> ∅;
     clock := Sample.frozen 1709658000000;
     env := {| ESCROW_HOLD_DAYS := None; LocalTZA := spring_forward |} |}.

End Cases.

(** ** Seller verification (routes/admin.js, models/Seller.js) *)

Inductive BusinessType :=
| brand | celebrity | established_business | verified_retailer.

Inductive DocumentType :=
| trade_license | tax_certificate | identity_proof
| celebrity_verification | brand_authorization.

Inductive DocumentStatus := doc_pending | doc_approved | doc_rejected.

#[global] Instance BusinessType_eq_dec : EqDecision BusinessType.
Proof. solve_decision. Defined.
#[global] Instance DocumentType_eq_dec : EqDecision DocumentType.
Proof. solve_decision. Defined.
#[global] Instance DocumentStatus_eq_dec : EqDecision DocumentStatus.
Proof. solve_decision. Defined.

Record Document := {
  doc_type : DocumentType;
  doc_url : string;
  doc_status : DocumentStatus;
  uploadedAt : Z
}.

Record BusinessInfo := {
  establishedYear : option Z;
  website : option string;
  ba_street : option string;
  ba_city : option string;
  ba_division : option string;
  facebook : option string;
  instagram : option string
}.

Record BankAccount := {
  accountNumber : option string;
  bank_isVerified : bool
}.

(** The seller document with the paths of [sellerSchema] that the admin
    routes read or write. *)
Record SellerDoc := {
  sd_userId : ObjectId;
  businessName : string;
  businessType : BusinessType;
  sd_description : string;
  sd_verificationStatus : VerificationStatus;
  verifiedAt : option Z;
  verifiedBy : option ObjectId;
  documents : list Document;
  businessInfo : BusinessInfo;
  trustBadges : list string;
  bankAccount : BankAccount;
  sd_isActive : bool;
  sd_createdAt : Z;
  sd_updatedAt : Z
}.

(** What the order flow reads of a seller document. *)
Definition seller_of (d : SellerDoc) : Seller :=
  {| verificationStatus := sd_verificationStatus d;
     isActive := sd_isActive d |}.

(** Modelled from the spec: [models/User.js] is not among the sources;
    these are the two fields [updateVerification] writes, the trust score
    of the linked user and its verified flag. *)
Record User := {
  trustScore : Z;
  u_isVerified : bool
}.

Record Registry := {
  sellerDocs : gmap N SellerDoc;
  users : gmap N User;
  r_clock : Clock
}.

Definition set_sellerDocs (m : gmap N SellerDoc) (r : Registry) : Registry :=
  {| sellerDocs := m; users := users r; r_clock := r_clock r |}.

Definition set_users (m : gmap N User) (r : Registry) : Registry :=
  {| sellerDocs := sellerDocs r; users := m; r_clock := r_clock r |}.

Definition set_r_clock (c : Clock) (r : Registry) : Registry :=
  {| sellerDocs := sellerDocs r; users := users r; r_clock := c |}.

Definition set_verification (s : VerificationStatus) (verAt : option Z)
    (verBy : option ObjectId) (badges : list string) (active : bool)
    (d : SellerDoc) : SellerDoc :=
  {| sd_userId := sd_userId d; businessName := businessName d;
     businessType := businessType d; sd_description := sd_description d;
     sd_verificationStatus := s; verifiedAt := verAt; verifiedBy := verBy;
     documents := documents d; businessInfo := businessInfo d;
     trustBadges := badges; bankAccount := bankAccount d;
     sd_isActive := active; sd_createdAt := sd_createdAt d;
     sd_updatedAt := sd_updatedAt d |}.

Definition set_sd_updatedAt (t : Z) (d : SellerDoc) : SellerDoc :=
  {| sd_userId := sd_userId d; businessName := businessName d;
     businessType := businessType d; sd_description := sd_description d;
     sd_verificationStatus := sd_verificationStatus d;
     verifiedAt := verifiedAt d; verifiedBy := verifiedBy d;
     documents := documents d; businessInfo := businessInfo d;
     trustBadges := trustBadges d; bankAccount := bankAccount d;
     sd_isActive := sd_isActive d; sd_createdAt := sd_createdAt d;
     sd_updatedAt := t |}.

(** [req.body] of [PATCH /api/admin/seller-verifications/:id]. *)
Record VerifyBody := {
  vb_status : VerificationStatus;
  vb_notes : option string;
  vb_rejectionReason : option string;
  vb_trustBadges : option (list string)
}.

(** [status] is one of under_review, verified, rejected; a rejection
    carries a reason. *)
Definition validate_verification (b : VerifyBody) : bool :=
  bool_decide (vb_status b ∈ [vs_under_review; vs_verified; vs_rejected])
  && (if decide (vb_status b = vs_rejected)
      then notEmpty (or_empty (vb_rejectionReason b)) else true).

(** The [enum] of the elements of [trustBadges], checked by [save]. *)
Definition badge_names : list string :=
  ["verified_brand"; "celebrity_endorsed"; "top_rated"; "fast_shipping";
   "authentic_guarantee"]%string.

Definition valid_badges (l : list string) : bool :=
  forallb (λ b, bool_decide (b ∈ badge_names)) l.

Inductive VCode := V_VALIDATION_FAILED | SELLER_NOT_FOUND | V_INTERNAL_ERROR.

Inductive VReply :=
| VOk (seller : SellerDoc)
| VFail (st : Z) (c : VCode).

(** [$inc: {trustScore: 50}, isVerified: true] *)
Definition reward (u : User) : User :=
  {| trustScore := trustScore u + 50; u_isVerified := true |}.

(** [trustBadges && trustBadges.length > 0] *)
Definition badges_given (b : VerifyBody) : option (list string) :=
  match vb_trustBadges b with
  | Some (x :: l) => Some (x :: l)
  | _ => None
  end.

(** The handler, [admin] being [req.user._id].  [rejectionReason] and
    [adminNotes] are no paths of [sellerSchema]: what the handler assigns
    to them stays on the loaded document, which [save] does not write from
    and the answer does not read; of the note only the reading of the clock
    for [addedAt] is left.  A [TypeError] on the unpopulated [userId] and a
    rejected [save] both end in the [catch] branch, 500. *)
Definition updateVerification (admin id : ObjectId) (b : VerifyBody)
    (r : Registry) : VReply * Registry :=
  if negb (validate_verification b) then (VFail 400 V_VALIDATION_FAILED, r)
  else
  match sellerDocs r !! id with
  | None => (VFail 404 SELLER_NOT_FOUND, r)
  | Some seller =>
      (* .populate('userId', 'name email'): null when the user is gone *)
      let user := users r !! sd_userId seller in
      (* seller.verificationStatus = status; if (status === 'verified') *)
      let verified_branch : option (SellerDoc * Registry) :=
        if decide (vb_status b = vs_verified) then
          let t := time (r_clock r) in
          let r1 := set_r_clock (tick (r_clock r)) r in
          let badges := default (trustBadges seller) (badges_given b) in
          let seller1 :=
            set_verification vs_verified (Some t) (Some admin) badges true
                             seller in
          match user with
          | None => None
          | Some u =>
              Some (seller1,
                    set_users (<[sd_userId seller := reward u]> (users r1))
                              r1)
          end
        else
          Some (set_verification (vb_status b) (verifiedAt seller)
                  (verifiedBy seller) (trustBadges seller)
                  (sd_isActive seller) seller, r) in
      match verified_branch with
      | None =>
          (VFail 500 V_INTERNAL_ERROR, set_r_clock (tick (r_clock r)) r)
      | Some (seller2, r2) =>
          (* if (status === 'rejected') *)
          let seller3 :=
            if decide (vb_status b = vs_rejected) then
              set_verification (sd_verificationStatus seller2)
                (verifiedAt seller2) (verifiedBy seller2)
                (trustBadges seller2) false seller2
            else seller2 in
          (* if (notes): addedAt: new Date() *)
          let r3 := if notEmpty (or_empty (vb_notes b))
                    then set_r_clock (tick (r_clock r2)) r2 else r2 in
          (* save: validation of what changed, then the pre('save') hook *)
          if bool_decide (vb_status b = vs_verified)
             && negb (valid_badges (default [] (badges_given b))) then
            (VFail 500 V_INTERNAL_ERROR, r3)
          else
            let seller4 := set_sd_updatedAt (time (r_clock r3)) seller3 in
            let r4 := set_r_clock (tick (r_clock r3)) r3 in
            let r5 := set_sellerDocs (<[id := seller4]> (sellerDocs r4)) r4 in
            (* notification: seller.userId.email *)
            match user with
            | None => (VFail 500 V_INTERNAL_ERROR, r5)
            | Some _ => (VOk seller4, r5)
            end
      end
  end.

(** The registry after [n] identical requests, one after the other. *)
Definition repeat_verification (admin id : ObjectId) (b : VerifyBody)
    (n : nat) (r : Registry) : Registry :=
  Nat.iter n (λ r', (updateVerification admin id b r').2) r.

(** ** The admin's reading aids (routes/admin.js) *)

Definition getRequiredDocuments (t : BusinessType) : list DocumentType :=
  match t with
  | brand =>
      [trade_license; tax_certificate; brand_authorization; identity_proof]
  | celebrity => [identity_proof; celebrity_verification; tax_certificate]
  | established_business => [trade_license; tax_certificate; identity_proof]
  | verified_retailer => [trade_license; tax_certificate; identity_proof]
  end.

(** Truthiness of an optional string and of an optional number. *)
Definition truthy_string (x : option string) : bool :=
  match x with Some s => notEmpty s | None => false end.

Definition truthy_number (x : option Z) : bool :=
  match x with Some n => negb (n =? 0) | None => false end.

Record Checklist := {
  businessInfo_complete : bool;
  documents_submitted : nat;
  documents_required : nat;
  documents_approved : nat;
  bankAccount_provided : bool;
  bankAccount_verified : bool;
  businessAddress_complete : bool
}.

(** [businessType] is a required enum and so always truthy. *)
Definition generateVerificationChecklist (seller : SellerDoc) : Checklist :=
  {| businessInfo_complete :=
       notEmpty (businessName seller) && notEmpty (sd_description seller);
     documents_submitted := length (documents seller);
     documents_required :=
       length (getRequiredDocuments (businessType seller));
     documents_approved :=
       length (filter (λ d, doc_status d = doc_approved) (documents seller));
     bankAccount_provided :=
       truthy_string (accountNumber (bankAccount seller));
     bankAccount_verified := bank_isVerified (bankAccount seller);
     businessAddress_complete :=
       truthy_string (ba_street (businessInfo seller))
       && truthy_string (ba_city (businessInfo seller))
       && truthy_string (ba_division (businessInfo seller)) |}.

Record RiskFactors := {
  newSeller : bool;
  incompleteProfile : bool;
  missingWebsite : bool;
  noSocialMedia : bool
}.

(** The object [riskFactors] as its list of keys and values, in order:
    [Object.keys] is the first components, [Object.values] the second. *)
Definition entries (rf : RiskFactors) : list (string * bool) :=
  [("newSeller"%string, newSeller rf);
   ("incompleteProfile"%string, incompleteProfile rf);
   ("missingWebsite"%string, missingWebsite rf);
   ("noSocialMedia"%string, noSocialMedia rf)].

Definition riskFactors_of (now_ : Z) (seller : SellerDoc) : RiskFactors :=
  {| newSeller := now_ - sd_createdAt seller <? 30 * 24 * 60 * 60 * 1000;
     incompleteProfile :=
       negb (truthy_number (establishedYear (businessInfo seller)));
     missingWebsite :=
       negb (truthy_string (website (businessInfo seller)));
     noSocialMedia :=
       negb (truthy_string (facebook (businessInfo seller))
             || truthy_string (instagram (businessInfo seller))) |}.

Definition generateRecommendations (rf : RiskFactors) (seller : SellerDoc)
  : list string :=
  (if newSeller rf
   then ["Monitor closely for first 3 months"%string] else [])
  ++ (if incompleteProfile rf
      then ["Request additional business information"%string] else [])
  ++ (if missingWebsite rf
      then ["Verify business through alternative channels"%string] else [])
  ++ (if decide (businessType seller = celebrity)
      then ["Require additional identity verification for celebrity status"
            %string] else []).

Inductive RiskLevel := risk_high | risk_medium | risk_low.

Record RiskAssessment := {
  score : nat;
  level : RiskLevel;
  factors : list string;
  recommendations : list string
}.

(** [now_] is the reading of [Date.now()]. *)
Definition generateRiskAssessment (now_ : Z) (seller : SellerDoc)
  : RiskAssessment :=
  let rf := riskFactors_of now_ seller in
  let riskScore := length (filter (λ b, b = true) (entries rf).*2) in
  {| score := riskScore;
     level := if decide (3 ≤ riskScore)%nat then risk_high
              else if decide (2 ≤ riskScore)%nat then risk_medium
              else risk_low;
     factors := (filter (λ kv, kv.2 = true) (entries rf)).*1;
     recommendations := generateRecommendations rf seller |}.

Module Cases2.

Definition info : BusinessInfo :=
  {| establishedYear := Some 1998; website := None; ba_street := None;
     ba_city := None; ba_division := None; facebook := None;
     instagram := None |}.

(** Seller 10 of user 20, waiting for review. *)
Definition applicant : SellerDoc :=
  {| sd_userId := 20%N; businessName := "Bashundhara";
     businessType := brand; sd_description := "Consumer goods";
     sd_verificationStatus := vs_pending; verifiedAt := None;
     verifiedBy := None;
     documents := [{| doc_type := trade_license; doc_url := "a";
                      doc_status := doc_approved; uploadedAt := 0 |};
                   {| doc_type := tax_certificate; doc_url := "b";
                      doc_status := doc_pending; uploadedAt := 0 |}];
     businessInfo := info; trustBadges := [];
     bankAccount := {| accountNumber := None; bank_isVerified := false |};
     sd_isActive := true; sd_createdAt := 0; sd_updatedAt := 0 |}.

Definition registry (with_user : bool) : Registry :=
  {| sellerDocs := <[10%N := applicant]> ∅;
     users := if with_user
              then <[20%N := {| trustScore := 100;
                                u_isVerified := false |}]> ∅
              else ∅;
     r_clock := Sample.frozen Sample.jan15 |}.

Definition approve (badges : option (list string)) : VerifyBody :=
  {| vb_status := vs_verified; vb_notes := Some "documents checked"%string;
     vb_rejectionReason := None; vb_trustBadges := badges |}.

Definition reject : VerifyBody :=
  {| vb_status := vs_rejected; vb_notes := None;
     vb_rejectionReason := Some "licence expired"%string;
     vb_trustBadges := None |}.

(** The products of [Sample.market] seen with the sellers of a
    registry. *)
Definition market_of (r : Registry) : World :=
  Sample.world (products Sample.market) (seller_of <$> sellerDocs r) ∅
    Sample.jan15 Sample.default_env.

End Cases2.
(** * Properties *)

(** ** The refund window *)

Section RefundWindow.

Lemma days_within (a : Z) :
  Qle_bool (inject_Z a / inject_Z (1000 * 60 * 60 * 24)) (inject_Z 30)
  = (a <=? 30 * Js.msPerDay).
Proof.
  apply eq_true_iff_eq. rewrite Qle_bool_iff, Z.leb_le.
  change (1000 * 60 * 60 * 24) with (Z.pos 86400000).
  rewrite <- Qmake_Qdiv. unfold Qle, Js.msPerDay. simpl. lia.
Qed.

Variable o : Order.
Variable w : World.

Lemma canRequestRefund_eval :
  canRequestRefund o w =
  match deliveredAt (shipping o) with
  | None => (Ok false, w)
  | Some d =>
      (Ok ((time (clock w) - d <=? 30 * Js.msPerDay)
           && bool_decide (e_status (escrow o) = held)),
       set_clock (tick (clock w)) w)
  end.
Proof.
  unfold canRequestRefund. destruct (deliveredAt (shipping o)); [|done].
  unfold bind, new_Date, ret. by rewrite days_within.
Qed.

(** The predicate only looks at the clock: no collection changes. *)
Lemma canRequestRefund_pure :
  orders (canRequestRefund o w).2 = orders w
  ∧ products (canRequestRefund o w).2 = products w.
Proof.
  rewrite canRequestRefund_eval. by destruct (deliveredAt (shipping o)).
Qed.

End RefundWindow.

(** C7.  [canRequestRefund] answers, for every order and every reading
    [time (clock w)] of the clock, and its answer is [true] exactly when
    the order has a delivery timestamp [d], at most 30 days have passed
    since [d], and the escrow is [held]. *)
Theorem canRequestRefund_iff (o : Order) (w : World) :
  ∃ b, (canRequestRefund o w).1 = Ok b
       ∧ (b = true ↔
          ∃ d, deliveredAt (shipping o) = Some d
               ∧ time (clock w) - d ≤ 30 * Js.msPerDay
               ∧ e_status (escrow o) = held).
Proof.
  rewrite canRequestRefund_eval.
  destruct (deliveredAt (shipping o)) as [d|] eqn:Hd; simpl.
  - eexists; split; [reflexivity|].
    rewrite andb_true_iff, Z.leb_le, bool_decide_eq_true. split.
    + intros [? ?]. by exists d.
    + intros (d' & [= <-] & ? & ?). done.
  - exists false; split; [done|]. split; [done|].
    by intros (d' & [=] & _).
Qed.

(** The three particular cases of C7. *)
Corollary canRequestRefund_before_delivery (o : Order) (w : World) :
  deliveredAt (shipping o) = None → (canRequestRefund o w).1 = Ok false.
Proof. intros H. by rewrite canRequestRefund_eval, H. Qed.

Corollary canRequestRefund_window_closed (o : Order) (w : World) (d : Z) :
  deliveredAt (shipping o) = Some d →
  30 * Js.msPerDay < time (clock w) - d →
  (canRequestRefund o w).1 = Ok false.
Proof.
  intros H Hlate. rewrite canRequestRefund_eval, H. simpl.
  by rewrite (proj2 (Z.leb_gt _ _) Hlate).
Qed.

Corollary canRequestRefund_escrow_left_held (o : Order) (w : World) :
  e_status (escrow o) ≠ held → (canRequestRefund o w).1 = Ok false.
Proof.
  intros H. rewrite canRequestRefund_eval.
  destruct (deliveredAt (shipping o)); [|done]. simpl.
  rewrite (bool_decide_eq_false_2 _ H). by rewrite andb_false_r.
Qed.


(** ** Requesting a refund *)

Lemma notEmpty_true (s : string) : s ≠ ""%string → notEmpty s = true.
Proof. intros H. unfold notEmpty. by destruct s. Qed.

(** C8.  For the order's buyer and a non-empty reason: when
    [canRequestRefund] holds, [requestRefund] stores the order with a
    pending refund record (not refunded, requested now, neither approved
    nor processed, for the order's total) and the escrow it had; when it
    does not hold, the answer is 400 [REFUND_NOT_ALLOWED] and no order and
    no product changes. *)
Theorem requestRefund_frame (user id : ObjectId) (reason : string)
    (description : option string) (o : Order) (w : World) :
  orders w !! id = Some o →
  customerId o = user →
  reason ≠ ""%string →
  ∃ can, (canRequestRefund o w).1 = Ok can ∧
    let r := requestRefund user id reason description w in
    if can then
      ∃ o', r.1 = Ok o'
            ∧ orders r.2 = <[id := o']> (orders w)
            ∧ products r.2 = products w
            ∧ escrow o' = escrow o
            ∧ status o' = status o
            ∧ isRefunded (refund o') = false
            ∧ r_reason (refund o') = Some reason
            ∧ amount (refund o') = Some (total (pricing o))
            ∧ is_Some (requestedAt (refund o'))
            ∧ approvedAt (refund o') = None
            ∧ processedAt (refund o') = None
    else
      r.1 = Fail 400 REFUND_NOT_ALLOWED
      ∧ orders r.2 = orders w
      ∧ products r.2 = products w.
Proof.
  intros Ho Hc Hr. cbv zeta.
  unfold requestRefund. rewrite (notEmpty_true _ Hr). cbn [negb].
  unfold bind, findOrder. cbv beta. rewrite Ho. cbv beta iota.
  rewrite (bool_decide_eq_true_2 _ Hc). cbn [negb].
  rewrite canRequestRefund_eval.
  destruct (deliveredAt (shipping o)) as [d|]; cbn [fst snd].
  - eexists; split; [reflexivity|].
    destruct (_ && _); cbn.
    + eexists. repeat split; eauto.
    + done.
  - exists false. done.
Qed.

Lemma requestRefund_frame_witness :
  ∃ o', (requestRefund 7 1 "damaged" None
           (Sample.with_order Sample.disputed_order Sample.default_env)).1
        = Ok o'
        ∧ escrow o' = escrow Sample.disputed_order
        ∧ isRefunded (refund o') = false
        ∧ amount (refund o') = Some 660.
Proof.
  destruct (requestRefund_frame 7 1 "damaged" None Sample.disputed_order
              (Sample.with_order Sample.disputed_order Sample.default_env)
              eq_refl eq_refl ltac:(discriminate)) as (can & Hcan & H).
  vm_compute in Hcan. injection Hcan as <-. cbv zeta in H.
  destruct H as (o' & H1 & _ & _ & H4 & _ & H6 & _ & H8 & _).
  exists o'. split; [exact H1|]. split; [exact H4|].
  split; [exact H6 | exact H8].
Defined.

(** ** Creating an order *)

Section ItemLoop.

Variable w : World.

Lemma eligible_excludes (it : ReqItem) :
  eligible w it → ¬ unavailable w it ∧ ¬ insufficient w it.
Proof.
  intros (p & Hp & Hact & Hs & Hq). split.
  - intros Hun. destruct (Hun p Hp) as [?|?]; done.
  - intros (p' & Hp' & Hlt). rewrite Hp in Hp'. injection Hp' as <-. lia.
Qed.

Lemma verified_active_spec (p : Product) :
  seller_verified_active w p ↔
  ∃ s, sellers w !! p_sellerId p = Some s ∧ verified_active s = true.
Proof.
  unfold seller_verified_active, verified_active.
  split; intros (s & Hs & H); exists s; split; try done.
  - destruct H as [-> ->]. done.
  - apply andb_true_iff in H as [H1 H2].
    by apply bool_decide_eq_true in H1.
Qed.

(** One turn of the loop: the item is pushed, or the handler returns. *)
Lemma validate_items_step (item : ReqItem) (rest : list ReqItem)
    (acc : list OrderItem) (sub : Z) :
  (∃ p, products w !! r_productId item = Some p ∧ eligible w item
        ∧ validate_items w (item :: rest) acc sub
          = validate_items w rest (acc ++ [line_item p item])
              (sub + p_price p * r_quantity item))
  ∨ (unavailable w item
     ∧ validate_items w (item :: rest) acc sub = Fail 400 PRODUCT_UNAVAILABLE)
  ∨ (insufficient w item
     ∧ validate_items w (item :: rest) acc sub = Fail 400 INSUFFICIENT_STOCK).
Proof.
  cbn [validate_items]. unfold findProduct_populate.
  destruct (products w !! r_productId item) as [p|] eqn:Hp.
  2:{ right; left. split; [|done]. intros p. by rewrite Hp. }
  destruct (sellers w !! p_sellerId p) as [s|] eqn:Hs.
  2:{ right; left. split; [|done]. intros p' Hp'. rewrite Hp in Hp'.
      injection Hp' as <-. right. intros (s & Hs' & _). congruence. }
  destruct (verified_active s) eqn:Hv.
  2:{ right; left. split; [|done]. intros p' Hp'. rewrite Hp in Hp'.
      injection Hp' as <-. right. rewrite verified_active_spec.
      intros (s' & Hs' & Hv'). congruence. }
  case_bool_decide as Hst.
  { right; left. split; [|done]. intros p' Hp'. rewrite Hp in Hp'.
    injection Hp' as <-. by left. }
  destruct (p_stock p <? r_quantity item) eqn:Hq.
  { right; right. split; [|done]. exists p. split; [done|].
    by apply Z.ltb_lt. }
  left. exists p. split; [done|]. split; [|done].
  exists p. split; [done|]. split; [|split].
  - destruct (decide (p_status p = ps_active)); [done | by destruct Hst].
  - apply verified_active_spec. by exists s.
  - by apply Z.ltb_ge.
Qed.

(** An offending item anywhere in the list stops the loop. *)
Lemma validate_items_fail (its : list ReqItem) (it : ReqItem) :
  it ∈ its → unavailable w it ∨ insufficient w it →
  ∀ acc sub, ∃ c,
    validate_items w its acc sub = Fail 400 c
    ∧ (c = PRODUCT_UNAVAILABLE ∨ c = INSUFFICIENT_STOCK).
Proof.
  intros Hin Hbad. induction its as [|item rest IH]; [by inversion Hin|].
  intros acc sub.
  destruct (validate_items_step item rest acc sub)
    as [(p & Hp & Hel & ->)|[[_ ->]|[_ ->]]]; [|eauto..].
  apply elem_of_cons in Hin as [->|Hin].
  - apply eligible_excludes in Hel. tauto.
  - by apply IH.
Qed.

(** The loop completes on a list of eligible items. *)
Lemma validate_items_eligible (its : list ReqItem) :
  Forall (eligible w) its →
  ∀ acc sub, ∃ ois s, validate_items w its acc sub = Ok (ois, s).
Proof.
  induction 1 as [|item rest Hel _ IH]; intros acc sub.
  - cbn. eauto.
  - destruct (validate_items_step item rest acc sub)
      as [(p & Hp & _ & ->)|[[Hun _]|[Hin _]]].
    + apply IH.
    + apply eligible_excludes in Hel. tauto.
    + apply eligible_excludes in Hel. tauto.
Qed.

End ItemLoop.

(** C4.  If some item of the request is unavailable (no such product, a
    product that is not active, a seller that is not verified and active)
    or asks for more than the stock, [createOrder] answers 400 and returns
    the world it was given: no stock and no order changed.  The code is
    [PRODUCT_UNAVAILABLE] or [INSUFFICIENT_STOCK] unless the request was
    already refused by the validators. *)
Theorem createOrder_all_or_nothing (user : ObjectId) (body : CreateOrderBody)
    (id : ObjectId) (w : World) (it : ReqItem) :
  it ∈ b_items body →
  unavailable w it ∨ insufficient w it →
  ∃ c, createOrder user body id w = (Fail 400 c, w)
       ∧ (if validate_createOrder body
          then c = PRODUCT_UNAVAILABLE ∨ c = INSUFFICIENT_STOCK
          else c = VALIDATION_FAILED).
Proof.
  intros Hin Hbad. unfold createOrder.
  destruct (validate_createOrder body); cbn [negb]; [|by eexists].
  destruct (validate_items_fail w _ _ Hin Hbad [] 0) as (c & Hc & Hcode).
  exists c. split; [|done].
  unfold bind, get_world. cbv beta iota. by rewrite Hc.
Qed.

(** The document that [createOrder] hands to [save] has no order number,
    and [save] refuses it. *)
Lemma save_new_Order (id customer seller : ObjectId) (its : list OrderItem)
    (pr : Pricing) (addr : ShippingAddress) (method : string) (tc tu : Z)
    (w : World) :
  save_new id (new_Order customer seller its pr addr method tc tu) w
  = (Fail 500 INTERNAL_ERROR, w).
Proof. reflexivity. Qed.

(** A request that passes the validators and the item loop is refused by
    [save], after [new Order] has read the clock twice. *)
Lemma createOrder_valid_request (user : ObjectId) (body : CreateOrderBody)
    (id : ObjectId) (w : World) :
  validate_createOrder body = true →
  Forall (eligible w) (b_items body) →
  createOrder user body id w = (Fail 500 INTERNAL_ERROR, after_new_Order w).
Proof.
  intros Hval Hel. unfold createOrder. rewrite Hval. cbn [negb].
  unfold bind, get_world. cbv beta iota.
  destruct (validate_items_eligible w _ Hel [] 0) as (ois & s & ->).
  destruct (b_items body) as [|it0 rest] eqn:Hits.
  { unfold validate_createOrder in Hval. rewrite Hits in Hval. done. }
  apply Forall_cons in Hel as [(p0 & Hp0 & _ & (s0 & Hs0 & _) & _) _].
  unfold findProduct_populate. rewrite Hp0, Hs0.
  unfold ret, new_Date. cbv beta iota. by rewrite save_new_Order.
Qed.

(** The three ways in which [createOrder] ends, whatever the request: an
    answer 400 with the world as it was, or 500, with the world as it was
    or with the clock read twice. *)
Lemma createOrder_result (user : ObjectId) (body : CreateOrderBody)
    (id : ObjectId) (w : World) :
  (∃ c, createOrder user body id w = (Fail 400 c, w))
  ∨ createOrder user body id w = (Fail 500 INTERNAL_ERROR, w)
  ∨ createOrder user body id w
    = (Fail 500 INTERNAL_ERROR, after_new_Order w).
Proof.
  unfold createOrder.
  destruct (validate_createOrder body); cbn [negb]; [|left; by eexists].
  unfold bind, get_world. cbv beta iota.
  destruct (validate_items w (b_items body) [] 0) as [[ois s]|st c] eqn:Hv.
  - destruct (b_items body) as [|it0 rest]; [by right; left|].
    unfold findProduct_populate.
    destruct (products w !! r_productId it0) as [p0|]; [|by right; left].
    destruct (sellers w !! p_sellerId p0); [|by right; left].
    right; right. unfold ret, new_Date. cbv beta iota.
    by rewrite save_new_Order.
  - left. exists c. f_equal. f_equal.
    clear -Hv. revert Hv. generalize (@nil OrderItem) 0.
    induction (b_items body) as [|item rest IH]; intros acc sub; [done|].
    destruct (validate_items_step w item rest acc sub)
      as [(p & _ & _ & ->)|[[_ ->]|[_ ->]]]; [apply IH | congruence..].
Qed.


(** C10.  A request that passes the validators and whose items are each
    eligible, whatever sellers their products belong to, is not turned
    into an order: the document that the handler builds has no
    [orderNumber], [save] refuses it before the hook that would give it
    one, and the answer is 500; no order is stored, under the first
    item's seller or any other, and no stock is reserved. *)
Theorem createOrder_rejects_valid_order (user : ObjectId)
    (body : CreateOrderBody) (id : ObjectId) (w : World) :
  validate_createOrder body = true →
  Forall (eligible w) (b_items body) →
  ∃ w', createOrder user body id w = (Fail 500 INTERNAL_ERROR, w')
        ∧ orders w' = orders w
        ∧ products w' = products w.
Proof.
  intros Hval Hel. rewrite (createOrder_valid_request _ _ _ _ Hval Hel).
  by eexists.
Qed.


Lemma createOrder_all_or_nothing_witness :
  ∃ c, createOrder 7 (Sample.body [Sample.item 1 1; Sample.item 3 1]) 100
         Sample.market = (Fail 400 c, Sample.market)
       ∧ (c = PRODUCT_UNAVAILABLE ∨ c = INSUFFICIENT_STOCK).
Proof.
  assert (Hin : Sample.item 3 1
                ∈ [Sample.item 1 1; Sample.item 3 1]) by set_solver.
  assert (Hbad : unavailable Sample.market (Sample.item 3 1)
                 ∨ insufficient Sample.market (Sample.item 3 1)).
  { left. intros p Hp. vm_compute in Hp. injection Hp as <-.
    right. intros (s & Hs & Hv & _). vm_compute in Hs.
    injection Hs as <-. discriminate Hv. }
  destruct (createOrder_all_or_nothing 7
              (Sample.body [Sample.item 1 1; Sample.item 3 1]) 100
              Sample.market (Sample.item 3 1) Hin Hbad) as (c & Hc & Hcode).
  exists c. split; [exact Hc | exact Hcode].
Defined.

(** The two items of the sample request are eligible in the sample
    market. *)
Lemma sample_items_eligible :
  Forall (eligible Sample.market)
    (b_items (Sample.body [Sample.item 1 2; Sample.item 2 1])).
Proof.
  repeat constructor.
  - exists (Sample.product 10 300 3). split; [by vm_compute|].
    split; [done|]. split; [|by vm_compute].
    exists Sample.verified. by vm_compute.
  - exists (Sample.product 11 500 5). split; [by vm_compute|].
    split; [done|]. split; [|by vm_compute].
    exists Sample.verified. by vm_compute.
Qed.

Lemma createOrder_rejects_valid_order_witness :
  p_sellerId <$> products Sample.market !! 1%N = Some 10%N
  ∧ p_sellerId <$> products Sample.market !! 2%N = Some 11%N
  ∧ ∃ w', createOrder 7 (Sample.body [Sample.item 1 2; Sample.item 2 1])
            100 Sample.market = (Fail 500 INTERNAL_ERROR, w')
          ∧ orders w' = orders Sample.market
          ∧ products w' = products Sample.market.
Proof.
  split; [by vm_compute|]. split; [by vm_compute|].
  exact (createOrder_rejects_valid_order 7
           (Sample.body [Sample.item 1 2; Sample.item 2 1]) 100
           Sample.market eq_refl sample_items_eligible).
Defined.



(** ** The reservation loop *)

(** X1.  The loop that follows [save] in the handler, run over a list of
    lines: each product loses the quantities of all the lines that name it,
    a product named on two lines losing both, and no product appears or
    disappears. *)
Theorem reservation_loop_stock (l : list OrderItem) (m : gmap N Product)
    (k : ObjectId) :
  fold_left reserve_stock l m !! k
  = (λ p, set_stock (p_stock p - requested k l) p) <$> m !! k.
Proof.
  revert m.
  induction l as [|oi l IH]; intros m; cbn [fold_left requested foldr].
  - destruct (m !! k) as [[]|]; cbn; [|done].
    unfold set_stock; cbn. do 2 f_equal. lia.
  - rewrite IH. unfold reserve_stock. rewrite lookup_alter.
    fold (requested k l).
    destruct (decide (productId oi = k)) as [->|Hne];
      (destruct (m !! _) as [[]|]; cbn; [|done]);
      unfold set_stock; cbn; do 2 f_equal; lia.
Qed.

(** The item checks look at one line at a time: product 1, with 3 in
    stock, passes them on two lines of quantity 2, and the loop run over
    these two lines would take 4. *)
Example item_checks_line_by_line :
  ∃ lines s,
    validate_items Sample.market [Sample.item 1 2; Sample.item 1 2] [] 0
    = Ok (lines, s)
    ∧ requested 1%N lines = 4
    ∧ p_stock <$> products Sample.market !! 1%N = Some 3.
Proof. eexists _, _. split; [by vm_compute|]. by vm_compute. Qed.

(** X3.  Whatever the request, [createOrder] answers with an error, 400
    or 500, and leaves the products, the sellers, the orders and the
    environment as they were; only the clock may have been read. *)
Theorem createOrder_changes_nothing (user : ObjectId)
    (body : CreateOrderBody) (id : ObjectId) (w : World) :
  let r := createOrder user body id w in
  (∃ c, r.1 = Fail 400 c ∨ r.1 = Fail 500 c)
  ∧ products r.2 = products w
  ∧ sellers r.2 = sellers w
  ∧ orders r.2 = orders w
  ∧ env r.2 = env w
  ∧ (r.2 = w ∨ r.2 = after_new_Order w).
Proof.
  cbv zeta.
  destruct (createOrder_result user body id w) as [(c & ->)|[->| ->]];
    cbn [fst snd]; (split; [eexists; eauto|]); repeat split; eauto.
Qed.

(** ** Confirming delivery *)

(** Adding a number of days: the same local time of day, [n] days on. *)
Lemma setDate_number (tza : Js.Zone) (t n : Z) :
  Js.setDate tza t (Js.add (Js.getDate tza t) (Js.Number n))
  = Some (Js.UTC tza (Js.LocalTime tza t + n * Js.msPerDay)).
Proof.
  unfold Js.setDate, Js.getDate. cbn. do 2 f_equal. lia.
Qed.

(** Where the offset at the new local time is the offset at [t], that is
    [n] days after [t]. *)
Lemma UTC_LocalTime_days (tza : Js.Zone) (t n : Z) :
  tza (Js.LocalTime tza t + n * Js.msPerDay) false = tza t true →
  Js.UTC tza (Js.LocalTime tza t + n * Js.msPerDay) = t + n * Js.msPerDay.
Proof. unfold Js.UTC, Js.LocalTime. intros ->. lia. Qed.

(** [setEscrowAutoRelease] with [ESCROW_HOLD_DAYS] unset: seven days
    after the reading of the clock, in local time. *)
Lemma setEscrowAutoRelease_default (order : Order) (w : World) :
  status order = delivered →
  autoReleaseAt (escrow order) = None →
  ESCROW_HOLD_DAYS (env w) = None →
  setEscrowAutoRelease order w
  = (Ok (set_escrow
           (set_autoReleaseAt
              (Js.UTC (LocalTZA (env w))
                 (Js.LocalTime (LocalTZA (env w)) (time (clock w))
                  + 7 * Js.msPerDay))
              (escrow order)) order),
     set_clock (tick (clock w)) w).
Proof.
  intros Hst Hauto Henv. unfold setEscrowAutoRelease.
  rewrite (bool_decide_eq_true_2 _ Hst), Hauto.
  rewrite bool_decide_eq_false_2 by (by intros [? ?]).
  cbn [negb andb]. unfold bind, new_Date, get_world. cbv beta iota.
  cbn [env set_clock]. rewrite Henv. cbn [Js.env_or].
  by rewrite setDate_number.
Qed.

(** [setEscrowAutoRelease] leaves a deadline that is set alone. *)
Lemma setEscrowAutoRelease_set (order : Order) (w : World) (t : Z) :
  autoReleaseAt (escrow order) = Some t →
  setEscrowAutoRelease order w = (Ok order, w).
Proof.
  intros Hauto. unfold setEscrowAutoRelease. rewrite Hauto.
  rewrite (bool_decide_eq_true_2 (is_Some (Some t))) by eauto.
  by rewrite andb_false_r.
Qed.

(** X9.  With [ESCROW_HOLD_DAYS] unset, a shipped order with no deadline yet,
    confirmed by its seller, becomes [delivered] at the first reading of
    the clock, its escrow [held], and its deadline is put at the local
    time of day of the second reading, seven days on.  Where the zone has
    the same offset then as at the reading, that is seven days after the
    reading. *)
Lemma confirmDelivery_default (seller id : ObjectId) (o : Order)
    (w : World) :
  orders w !! id = Some o →
  sellerId o = seller →
  status o = shipped →
  autoReleaseAt (escrow o) = None →
  ESCROW_HOLD_DAYS (env w) = None →
  let zone := LocalTZA (env w) in
  let t := time (tick (clock w)) in
  ∃ o', confirmDelivery seller id w
        = (Ok o', set_orders (<[id := o']> (orders w))
                    (set_clock (tick (tick (tick (clock w)))) w))
        ∧ status o' = delivered
        ∧ deliveredAt (shipping o') = Some (time (clock w))
        ∧ e_status (escrow o') = held
        ∧ autoReleaseAt (escrow o')
          = Some (Js.UTC zone (Js.LocalTime zone t + 7 * Js.msPerDay))
        ∧ (zone (Js.LocalTime zone t + 7 * Js.msPerDay) false = zone t true →
           autoReleaseAt (escrow o') = Some (t + 7 * Js.msPerDay)).
Proof.
  intros Ho Hs Hst Hauto Henv zone t.
  unfold confirmDelivery, bind, findOrder. cbv beta. rewrite Ho. cbv iota.
  rewrite (bool_decide_eq_true_2 _ Hs), Hst. cbn [negb].
  rewrite bool_decide_eq_false_2 by (intros H; by apply H).
  unfold new_Date at 1. cbv beta iota.
  rewrite setEscrowAutoRelease_default by done.
  unfold save, bind, new_Date. cbn. eexists. split; [reflexivity|].
  cbn. repeat (split; [done|]). intros Hzone. f_equal.
  by apply UTC_LocalTime_days.
Qed.

(** In a zone that changes its offset within the week the deadline is not
    seven days after the reading: confirmed on 5 March at noon, five days
    before the clocks go forward, the order gets a deadline on 12 March at
    noon, one hour short of seven days. *)
Example confirmDelivery_across_the_change :
  ∃ o', (confirmDelivery 10 1 Cases.before_the_change).1 = Ok o'
        ∧ deliveredAt (shipping o') = Some 1709658000000
        ∧ autoReleaseAt (escrow o')
          = Some (1709658000000 + 7 * Js.msPerDay - 3600000).
Proof. eexists. split; [by vm_compute|]. by vm_compute. Qed.

(** X10.  Whatever [confirmDelivery] answers, a deadline that is set stays. *)
Lemma confirmDelivery_keeps_deadline (seller id : ObjectId) (o : Order)
    (w : World) (t : Z) :
  orders w !! id = Some o →
  autoReleaseAt (escrow o) = Some t →
  ∃ o', orders (confirmDelivery seller id w).2 !! id = Some o'
        ∧ autoReleaseAt (escrow o') = Some t.
Proof.
  intros Ho Hauto.
  unfold confirmDelivery, bind, findOrder. cbv beta. rewrite Ho. cbv iota.
  destruct (negb _); [by exists o|].
  destruct (bool_decide (status o ≠ shipped)); [by exists o|].
  unfold new_Date at 1. cbv beta iota.
  rewrite (setEscrowAutoRelease_set _ _ t) by done.
  unfold save, bind, new_Date. cbn. rewrite lookup_insert_eq. eauto.
Qed.

(** A delivered order is not confirmed again. *)
Lemma confirmDelivery_again (seller id : ObjectId) (o : Order) (w : World) :
  orders w !! id = Some o →
  status o = delivered →
  ∃ st c, confirmDelivery seller id w = (Fail st c, w).
Proof.
  intros Ho Hst.
  unfold confirmDelivery, bind, findOrder. cbv beta. rewrite Ho. cbv iota.
  destruct (negb _); [by eexists _, _|].
  rewrite Hst. by eexists _, _.
Qed.

(** C6, with the hold period configured.  [ESCROW_HOLD_DAYS=7] makes
    [process.env.ESCROW_HOLD_DAYS] the string "7"; on the 15th of January
    [getDate() + "7"] is the string "157", and [setDate] moves the
    deadline to day 157 counted from the first of January: 142 days after
    the delivery, not 7. *)
Theorem confirmDelivery_configured_deadline :
  ∃ o' w',
    confirmDelivery 10 1
      (Sample.with_order Sample.shipped_order Sample.configured_env)
    = (Ok o', w')
    ∧ status o' = delivered
    ∧ e_status (escrow o') = held
    ∧ deliveredAt (shipping o') = Some Sample.jan15
    ∧ autoReleaseAt (escrow o') = Some (Sample.jan15 + 142 * Js.msPerDay)
    ∧ Sample.jan15 + 142 * Js.msPerDay ≠ Sample.jan15 + 7 * Js.msPerDay.
Proof.
  destruct (confirmDelivery 10 1 _) as [[o'|st c] w'] eqn:E.
  - exists o', w'. split; [done|].
    vm_compute in E. injection E as <- <-. by vm_compute.
  - vm_compute in E. discriminate E.
Qed.

(** ** Approving delivery *)

(** The buyer's approval is refused unless the order is delivered and its
    escrow is held; nothing changes then. *)
Lemma approveDelivery_guard (user id : ObjectId) (o : Order) (w : World) :
  orders w !! id = Some o →
  status o ≠ delivered ∨ e_status (escrow o) ≠ held →
  ∃ st c, approveDelivery user id w = (Fail st c, w).
Proof.
  intros Ho Hbad.
  unfold approveDelivery, bind, findOrder. cbv beta. rewrite Ho. cbv iota.
  destruct (negb _); [by eexists _, _|].
  assert (bool_decide (status o ≠ delivered)
          || bool_decide (e_status (escrow o) ≠ held) = true) as ->.
  { apply orb_true_iff. destruct Hbad; [left|right];
      by apply bool_decide_eq_true. }
  by eexists _, _.
Qed.

(** On a delivered order with held escrow the buyer's approval takes the
    edge held → released_to_seller and stamps the approval. *)
Lemma approveDelivery_releases (user id : ObjectId) (o : Order)
    (w : World) :
  orders w !! id = Some o →
  customerId o = user →
  status o = delivered →
  e_status (escrow o) = held →
  ∃ o', (approveDelivery user id w).1 = Ok o'
        ∧ orders (approveDelivery user id w).2 = <[id := o']> (orders w)
        ∧ e_status (escrow o') = released_to_seller
        ∧ customerApproval (escrow o') = true
        ∧ customerApprovalAt (escrow o') = Some (time (clock w))
        ∧ releasedAt (escrow o') = Some (time (tick (clock w)))
        ∧ releasedBy (escrow o') = Some user
        ∧ autoReleaseAt (escrow o') = autoReleaseAt (escrow o).
Proof.
  intros Ho Hc Hst He.
  unfold approveDelivery, bind, findOrder. cbv beta. rewrite Ho. cbv iota.
  rewrite (bool_decide_eq_true_2 _ Hc), Hst, He. cbn [negb].
  rewrite !bool_decide_eq_false_2 by (intros H; by apply H).
  unfold new_Date, save, bind. cbn. eexists. done.
Qed.

(** ** Resolving a dispute *)

(** C3, as the handler decides it.  On a stored order and a valid request
    the one guard is [dispute.isDisputed]: without it the answer is 404
    [DISPUTE_NOT_FOUND] and the world is returned as it was; with it, on
    an order whose escrow is held, the order is stored with the dispute
    [resolved], and with a completed refund record of the given amount and
    the escrow [refunded_to_customer] when [refundAmount > 0], with the
    escrow [released_to_seller] otherwise.  The status of the dispute is
    not read. *)
Theorem resolveDispute_outcome (admin id : ObjectId) (res : string)
    (refundAmount : option Z) (adminNotes_ : option string) (o : Order)
    (w : World) :
  orders w !! id = Some o →
  validate_resolve res refundAmount = true →
  let r := resolveDispute admin id res refundAmount adminNotes_ w in
  if isDisputed (dispute o) then
    e_status (escrow o) = held →
    ∃ o', r.1 = Ok o'
          ∧ orders r.2 = <[id := o']> (orders w)
          ∧ d_status (dispute o') = Some ds_resolved
          ∧ resolution (dispute o') = Some res
          ∧ resolvedBy (dispute o') = Some admin
          ∧ if positive_amount refundAmount then
              e_status (escrow o') = refunded_to_customer
              ∧ isRefunded (refund o') = true
              ∧ amount (refund o') = refundAmount
              ∧ is_Some (approvedAt (refund o'))
              ∧ is_Some (processedAt (refund o'))
            else
              e_status (escrow o') = released_to_seller
              ∧ releasedBy (escrow o') = Some admin
              ∧ refund o' = refund o
  else r = (Fail 404 DISPUTE_NOT_FOUND, w).
Proof.
  intros Ho Hval. cbv zeta.
  unfold resolveDispute. rewrite Hval. cbn [negb].
  unfold bind, findOrder. cbv beta. rewrite Ho. cbv iota.
  destruct (isDisputed (dispute o)); cbn [negb]; [|done].
  intros _.
  destruct (positive_amount refundAmount);
    unfold new_Date, save, bind, ret; cbn; eexists; eauto 12.
Qed.

Lemma resolveDispute_outcome_witness :
  ∃ o', (resolveDispute 99 1 "refund the buyer" (Some 500) None
           (Sample.with_order Sample.disputed_order Sample.default_env)).1
        = Ok o'
        ∧ d_status (dispute o') = Some ds_resolved
        ∧ e_status (escrow o') = refunded_to_customer
        ∧ isRefunded (refund o') = true
        ∧ amount (refund o') = Some 500.
Proof.
  pose proof (resolveDispute_outcome 99 1 "refund the buyer" (Some 500) None
                Sample.disputed_order
                (Sample.with_order Sample.disputed_order Sample.default_env)
                eq_refl eq_refl) as H.
  cbv zeta in H. cbn [Sample.disputed_order Sample.order Sample.open_dispute
                      dispute isDisputed positive_amount Z.ltb Z.compare]
    in H.
  destruct (H eq_refl) as (o' & H1 & _ & H3 & _ & _ & H6 & H7 & H8 & _).
  exists o'. split; [exact H1|]. split; [exact H3|]. split; [exact H6|].
  split; [exact H7 | exact H8].
Defined.

(** C3 as first stated fails here: the dispute of order 1 is closed,
    neither open nor under review, while the escrow is still held, and the
    resolution with a refund is accepted all the same. *)
Lemma resolveDispute_closed_dispute :
  let w0 := Sample.with_order Sample.closed_dispute_order
              Sample.default_env in
  let r := resolveDispute 99 1 "refund the buyer" (Some 500) None w0 in
  (λ o, (isDisputed (dispute o), d_status (dispute o))) <$> orders w0 !! 1%N
  = Some (true, Some ds_closed)
  ∧ Sample.escrow_of 1 w0 = Some held
  ∧ is_ok r.1 = true
  ∧ Sample.escrow_of 1 r.2 = Some refunded_to_customer.
Proof. by vm_compute. Qed.

(** C1, at two resolutions of one dispute.  The first, without a refund,
    releases the escrow to the seller; the second, with a refund of 500,
    is accepted and moves the same escrow from [released_to_seller] to
    [refunded_to_customer], which is no edge of the state machine. *)
Theorem resolveDispute_leaves_terminal :
  let w0 := Sample.with_order Sample.disputed_order Sample.default_env in
  let w1 := (resolveDispute 99 1 "seller is right" None None w0).2 in
  let r2 := resolveDispute 99 1 "refund the buyer" (Some 500) None w1 in
  Sample.escrow_of 1 w0 = Some held
  ∧ Sample.escrow_of 1 w1 = Some released_to_seller
  ∧ terminal released_to_seller = true
  ∧ is_ok r2.1 = true
  ∧ Sample.escrow_of 1 r2.2 = Some refunded_to_customer
  ∧ ¬ legal_edge released_to_seller refunded_to_customer.
Proof.
  cbv zeta. repeat (split; [by vm_compute|]). by inversion 1.
Qed.

(** C2, at an approval followed by a resolution.  The buyer approves the
    delivered order and the escrow is released; the admin's resolution of
    the dispute with a refund, attempted afterwards, succeeds as well and
    turns the released escrow into a refunded one.  A second approval, on
    the contrary, is refused. *)
Theorem approve_then_resolve :
  let w0 := Sample.with_order Sample.disputed_order Sample.default_env in
  let r1 := approveDelivery 7 1 w0 in
  let r2 := resolveDispute 99 1 "refund the buyer" (Some 500) None r1.2 in
  Sample.escrow_of 1 w0 = Some held
  ∧ is_ok r1.1 = true
  ∧ Sample.escrow_of 1 r1.2 = Some released_to_seller
  ∧ is_ok r2.1 = true
  ∧ Sample.escrow_of 1 r2.2 = Some refunded_to_customer
  ∧ (approveDelivery 7 1 r1.2).1 = Fail 400 INVALID_STATUS.
Proof.
  cbv zeta. repeat (split; [by vm_compute|]). by vm_compute.
Qed.

(** ** Which later attempts the guards do stop *)

(** X15.  A second approval by the buyer is refused. *)
Lemma approveDelivery_once (user id : ObjectId) (o : Order) (w : World) :
  orders w !! id = Some o →
  customerId o = user →
  status o = delivered →
  e_status (escrow o) = held →
  let w1 := (approveDelivery user id w).2 in
  ∃ st c, approveDelivery user id w1 = (Fail st c, w1).
Proof.
  intros Ho Hc Hst He w1.
  destruct (approveDelivery_releases user id o w Ho Hc Hst He)
    as (o' & _ & Hw1 & He' & _).
  apply (approveDelivery_guard user id o').
  - subst w1. rewrite Hw1. apply lookup_insert_eq.
  - right. by rewrite He'.
Qed.

(** X16.  An approval that comes after the admin's resolution is refused. *)
Lemma resolveDispute_then_approve (admin user id : ObjectId) (res : string)
    (refundAmount : option Z) (adminNotes_ : option string) (o : Order)
    (w : World) :
  orders w !! id = Some o →
  validate_resolve res refundAmount = true →
  isDisputed (dispute o) = true →
  let w1 := (resolveDispute admin id res refundAmount adminNotes_ w).2 in
  ∃ st c, approveDelivery user id w1 = (Fail st c, w1).
Proof.
  intros Ho Hval Hd w1.
  assert (∃ o', orders w1 !! id = Some o' ∧ e_status (escrow o') ≠ held)
    as (o' & Ho' & He').
  { subst w1. unfold resolveDispute. rewrite Hval. cbn [negb].
    unfold bind, findOrder. cbv beta. rewrite Ho. cbv iota.
    rewrite Hd. cbn [negb].
    destruct (positive_amount refundAmount);
      unfold new_Date, save, bind, ret; cbn;
      rewrite lookup_insert_eq; eexists; split; try reflexivity; done. }
  apply (approveDelivery_guard user id o' w1 Ho'). by right.
Qed.

(** * Further properties of the order handlers *)

(** ** What the handlers leave alone *)

Lemma touches_only_refl (id : ObjectId) (w : World) : touches_only id w w.
Proof. by repeat split. Qed.

Lemma touches_only_save (id : ObjectId) (o : Order) (w : World) (c : Clock) :
  touches_only id w
    (set_orders (<[id := o]> (orders (set_clock c w))) (set_clock c w)).
Proof.
  repeat split. intros j Hj. cbn. by rewrite lookup_insert_ne.
Qed.

Lemma same_core_refl (o : Order) : same_core o o.
Proof. by repeat split. Qed.

(** Each handler, one at a time: where it stops early the world is the one
    it was given (the clock apart), where it saves it writes the order
    [id] and nothing else. *)
Lemma confirmDelivery_frame (seller id : ObjectId) (w : World) :
  touches_only id w (confirmDelivery seller id w).2.
Proof.
  run_handler. destruct (orders w !! id) as [o|]; cbn [snd];
    [|apply touches_only_refl].
  destruct (negb _); [apply touches_only_refl|].
  destruct (bool_decide (status o ≠ shipped)); [apply touches_only_refl|].
  cbn [status set_status set_shipping set_escrow escrow].
  destruct (_ && _); cbn.
  - destruct (Js.setDate _ _ _); cbn.
    + repeat split. intros j Hj. cbn. by rewrite lookup_insert_ne.
    + by repeat split.
  - repeat split. intros j Hj. cbn. by rewrite lookup_insert_ne.
Qed.

Lemma approveDelivery_frame (user id : ObjectId) (w : World) :
  touches_only id w (approveDelivery user id w).2.
Proof.
  run_handler. destruct (orders w !! id) as [o|]; cbn [snd];
    [|apply touches_only_refl].
  destruct (negb _); [apply touches_only_refl|].
  destruct (_ || _); [apply touches_only_refl|]. cbn.
  repeat split. intros j Hj. cbn. by rewrite lookup_insert_ne.
Qed.

Lemma requestRefund_frame_world (user id : ObjectId) (reason : string)
    (description : option string) (w : World) :
  touches_only id w (requestRefund user id reason description w).2.
Proof.
  run_handler. destruct (negb (notEmpty reason)); [apply touches_only_refl|].
  destruct (orders w !! id) as [o|]; cbn [snd]; [|apply touches_only_refl].
  destruct (negb _); [apply touches_only_refl|].
  rewrite canRequestRefund_eval.
  destruct (deliveredAt (shipping o)); cbn; [|apply touches_only_refl].
  destruct (_ && _); cbn.
  - repeat split. intros j Hj. cbn. by rewrite lookup_insert_ne.
  - by repeat split.
Qed.

Lemma resolveDispute_frame (admin id : ObjectId) (res : string)
    (refundAmount : option Z) (adminNotes_ : option string) (w : World) :
  touches_only id w
    (resolveDispute admin id res refundAmount adminNotes_ w).2.
Proof.
  run_handler. destruct (negb (validate_resolve _ _));
    [apply touches_only_refl|].
  destruct (orders w !! id) as [o|]; cbn [snd]; [|apply touches_only_refl].
  destruct (negb _); [apply touches_only_refl|].
  destruct (positive_amount refundAmount); cbn;
    repeat split; intros j Hj; cbn; by rewrite lookup_insert_ne.
Qed.

(** X5.  Confirming, approving, requesting a refund and resolving a dispute
    never touch a product (so no stock), a seller, the environment or any
    order but the one they are called on. *)
Theorem order_handlers_frame (caller id : ObjectId) (reason : string)
    (description : option string) (refundAmount : option Z) (w : World) :
  touches_only id w (confirmDelivery caller id w).2
  ∧ touches_only id w (approveDelivery caller id w).2
  ∧ touches_only id w (requestRefund caller id reason description w).2
  ∧ touches_only id w
      (resolveDispute caller id reason refundAmount description w).2.
Proof.
  split; [apply confirmDelivery_frame|].
  split; [apply approveDelivery_frame|].
  split; [apply requestRefund_frame_world | apply resolveDispute_frame].
Qed.

(** ** What stays of an order *)

Lemma confirmDelivery_core (seller id : ObjectId) (o : Order) (w : World) :
  orders w !! id = Some o →
  ∃ o', orders (confirmDelivery seller id w).2 !! id = Some o'
        ∧ same_core o o'.
Proof.
  intros Ho. run_handler. rewrite Ho. cbv iota.
  destruct (negb _); [exists o; split; [done | apply same_core_refl]|].
  destruct (bool_decide (status o ≠ shipped));
    [exists o; split; [done | apply same_core_refl]|].
  cbn [status set_status set_shipping set_escrow escrow].
  destruct (_ && _); cbn.
  - destruct (Js.setDate _ _ _); cbn.
    + rewrite lookup_insert_eq. eexists. split; [done|]. by repeat split.
    + exists o. split; [done | apply same_core_refl].
  - rewrite lookup_insert_eq. eexists. split; [done|]. by repeat split.
Qed.

Lemma approveDelivery_core (user id : ObjectId) (o : Order) (w : World) :
  orders w !! id = Some o →
  ∃ o', orders (approveDelivery user id w).2 !! id = Some o'
        ∧ same_core o o'.
Proof.
  intros Ho. run_handler. rewrite Ho. cbv iota.
  destruct (negb _); [exists o; split; [done | apply same_core_refl]|].
  destruct (_ || _); [exists o; split; [done | apply same_core_refl]|].
  cbn. rewrite lookup_insert_eq. eexists. split; [done|]. by repeat split.
Qed.

Lemma requestRefund_core (user id : ObjectId) (reason : string)
    (description : option string) (o : Order) (w : World) :
  orders w !! id = Some o →
  ∃ o', orders (requestRefund user id reason description w).2 !! id
        = Some o'
        ∧ same_core o o'.
Proof.
  intros Ho. run_handler.
  destruct (negb (notEmpty reason));
    [exists o; split; [done | apply same_core_refl]|].
  rewrite Ho. cbv iota.
  destruct (negb _); [exists o; split; [done | apply same_core_refl]|].
  rewrite canRequestRefund_eval.
  destruct (deliveredAt (shipping o)); cbn;
    [|exists o; split; [done | apply same_core_refl]].
  destruct (_ && _); cbn.
  - rewrite lookup_insert_eq. eexists. split; [done|].
    repeat split. by apply prefix_app_r.
  - exists o. split; [done | apply same_core_refl].
Qed.

Lemma resolveDispute_core (admin id : ObjectId) (res : string)
    (refundAmount : option Z) (adminNotes_ : option string) (o : Order)
    (w : World) :
  orders w !! id = Some o →
  ∃ o', orders (resolveDispute admin id res refundAmount adminNotes_ w).2
        !! id = Some o'
        ∧ same_core o o'.
Proof.
  intros Ho. run_handler.
  destruct (negb (validate_resolve _ _));
    [exists o; split; [done | apply same_core_refl]|].
  rewrite Ho. cbv iota.
  destruct (negb _); [exists o; split; [done | apply same_core_refl]|].
  destruct (positive_amount refundAmount); cbn;
    rewrite lookup_insert_eq; eexists; (split; [done|]);
    repeat split; by apply prefix_app_r.
Qed.

(** X6.  Whatever one of the four handlers answers, the order it was called
    on is still stored, with the buyer, the seller, the lines, the pricing,
    the address, the payment and the creation time it had, and with its
    earlier notes in front of any new one. *)
Theorem order_core_kept (caller id : ObjectId) (reason : string)
    (description : option string) (refundAmount : option Z) (o : Order)
    (w : World) :
  orders w !! id = Some o →
  (∃ o', orders (confirmDelivery caller id w).2 !! id = Some o'
         ∧ same_core o o')
  ∧ (∃ o', orders (approveDelivery caller id w).2 !! id = Some o'
           ∧ same_core o o')
  ∧ (∃ o', orders (requestRefund caller id reason description w).2 !! id
           = Some o' ∧ same_core o o')
  ∧ (∃ o', orders (resolveDispute caller id reason refundAmount
                     description w).2 !! id = Some o'
           ∧ same_core o o').
Proof.
  intros Ho.
  split; [by apply confirmDelivery_core|].
  split; [by apply approveDelivery_core|].
  split; [by apply requestRefund_core | by apply resolveDispute_core].
Qed.

Lemma order_core_kept_witness :
  ∃ o', orders (resolveDispute 99 1 "refund the buyer" (Some 500) None
                  (Sample.with_order Sample.disputed_order
                     Sample.default_env)).2 !! 1%N = Some o'
        ∧ pricing o' = pricing Sample.disputed_order
        ∧ items o' = items Sample.disputed_order.
Proof.
  destruct (order_core_kept 99 1 "refund the buyer" None (Some 500)
              Sample.disputed_order
              (Sample.with_order Sample.disputed_order Sample.default_env)
              eq_refl) as (_ & _ & _ & o' & Ho' & Hcore).
  exists o'. split; [exact Ho'|].
  destruct Hcore as (_ & _ & Hi & Hp & _). split; [exact Hp | exact Hi].
Defined.

(** ** Who may act on an order *)

(** X7.  For a caller who is not the order's customer, [approveDelivery]
    and [requestRefund] answer exactly as they do for an order that does
    not exist: 404 [ORDER_NOT_FOUND], with the world unchanged. *)
Theorem buyer_handlers_hide_foreign_orders (user id : ObjectId)
    (reason : string) (description : option string) (w : World) :
  (∀ o, orders w !! id = Some o → customerId o ≠ user) →
  reason ≠ ""%string →
  approveDelivery user id w = (Fail 404 ORDER_NOT_FOUND, w)
  ∧ requestRefund user id reason description w
    = (Fail 404 ORDER_NOT_FOUND, w).
Proof.
  intros Hforeign Hr. run_handler. rewrite (notEmpty_true _ Hr).
  cbn [negb]. destruct (orders w !! id) as [o|]; [|done].
  rewrite (bool_decide_eq_false_2 _ (Hforeign o eq_refl)). done.
Qed.

Lemma buyer_handlers_hide_foreign_orders_witness :
  approveDelivery 8 1
    (Sample.with_order Sample.disputed_order Sample.default_env)
  = (Fail 404 ORDER_NOT_FOUND,
     Sample.with_order Sample.disputed_order Sample.default_env)
  ∧ approveDelivery 8 2
      (Sample.with_order Sample.disputed_order Sample.default_env)
    = (Fail 404 ORDER_NOT_FOUND,
       Sample.with_order Sample.disputed_order Sample.default_env).
Proof.
  split.
  - apply (buyer_handlers_hide_foreign_orders 8 1 "x" None).
    + intros o Ho. vm_compute in Ho. injection Ho as <-. discriminate.
    + discriminate.
  - apply (buyer_handlers_hide_foreign_orders 8 2 "x" None).
    + intros o Ho. vm_compute in Ho. discriminate Ho.
    + discriminate.
Defined.

(** X8.  For a seller who is not the order's seller, [confirmDelivery]
    answers as for an order that does not exist, whatever the state of the
    order: 404 [ORDER_NOT_FOUND], with the world unchanged. *)
Theorem confirmDelivery_hides_foreign_orders (seller id : ObjectId)
    (w : World) :
  (∀ o, orders w !! id = Some o → sellerId o ≠ seller) →
  confirmDelivery seller id w = (Fail 404 ORDER_NOT_FOUND, w).
Proof.
  intros Hforeign. run_handler. destruct (orders w !! id) as [o|]; [|done].
  rewrite (bool_decide_eq_false_2 _ (Hforeign o eq_refl)). done.
Qed.

Lemma confirmDelivery_hides_foreign_orders_witness :
  confirmDelivery 11 1
    (Sample.with_order Sample.shipped_order Sample.default_env)
  = (Fail 404 ORDER_NOT_FOUND,
     Sample.with_order Sample.shipped_order Sample.default_env).
Proof.
  apply confirmDelivery_hides_foreign_orders.
  intros o Ho. vm_compute in Ho. injection Ho as <-. discriminate.
Defined.

(** ** How the handlers follow one another *)

(** What a successful [confirmDelivery] was called on, and what it
    stored. *)
Lemma confirmDelivery_ok (seller id : ObjectId) (w : World) (o1 : Order)
    (w1 : World) :
  confirmDelivery seller id w = (Ok o1, w1) →
  ∃ o, orders w !! id = Some o
       ∧ sellerId o = seller
       ∧ status o = shipped
       ∧ orders w1 !! id = Some o1
       ∧ status o1 = delivered
       ∧ e_status (escrow o1) = held
       ∧ deliveredAt (shipping o1) = Some (time (clock w))
       ∧ customerId o1 = customerId o
       ∧ pricing o1 = pricing o.
Proof.
  run_handler. destruct (orders w !! id) as [o|] eqn:Ho; [|done].
  case_bool_decide as Hs; cbn [negb]; [|done].
  case_bool_decide as Hst; [done|].
  assert (status o = shipped) as Hst'.
  { destruct (decide (status o = shipped)); [done | by destruct Hst]. }
  cbn [status set_status set_shipping set_escrow escrow].
  destruct (_ && _); cbn.
  - destruct (Js.setDate _ _ _); cbn; [|done].
    intros [= <- <-]. exists o. cbn. by rewrite lookup_insert_eq.
  - intros [= <- <-]. exists o. cbn. by rewrite lookup_insert_eq.
Qed.

(** X12.  Once the seller's confirmation has succeeded, the buyer's approval
    succeeds at once: no waiting period and no look at the dispute.  The
    escrow goes to [released_to_seller], stamped with the buyer, and the
    deadline set at delivery stays on the record. *)
Theorem confirm_then_approve (seller id : ObjectId) (w : World)
    (o1 : Order) (w1 : World) :
  confirmDelivery seller id w = (Ok o1, w1) →
  ∃ o2, (approveDelivery (customerId o1) id w1).1 = Ok o2
        ∧ status o2 = delivered
        ∧ e_status (escrow o2) = released_to_seller
        ∧ customerApproval (escrow o2) = true
        ∧ releasedBy (escrow o2) = Some (customerId o1)
        ∧ autoReleaseAt (escrow o2) = autoReleaseAt (escrow o1).
Proof.
  intros H.
  destruct (confirmDelivery_ok _ _ _ _ _ H)
    as (o & _ & _ & _ & Ho1 & Hst & He & _).
  run_handler. rewrite Ho1. cbv iota.
  rewrite (bool_decide_eq_true_2 _ eq_refl), Hst, He. cbn [negb].
  rewrite !bool_decide_eq_false_2 by (intros ?; done).
  cbn. eexists. split; [reflexivity|]. cbn. by rewrite ?Hst.
Qed.

Lemma confirm_then_approve_witness :
  ∃ o1 w1 o2,
    confirmDelivery 10 1
      (Sample.with_order Sample.shipped_order Sample.default_env)
    = (Ok o1, w1)
    ∧ (approveDelivery 7 1 w1).1 = Ok o2
    ∧ e_status (escrow o2) = released_to_seller.
Proof.
  destruct (confirmDelivery 10 1
              (Sample.with_order Sample.shipped_order Sample.default_env))
    as [[o1|st c] w1] eqn:E.
  - destruct (confirm_then_approve _ _ _ _ _ E)
      as (o2 & H2 & _ & He & _).
    exists o1, w1, o2. split; [reflexivity|]. split; [|exact He].
    assert (customerId o1 = 7%N) as Hc.
    { vm_compute in E. by injection E as <- _. }
    by rewrite Hc in H2.
  - vm_compute in E. discriminate E.
Defined.

(** X13.  After a successful confirmation the buyer can ask for a refund
    for as long as the clock has not moved more than 30 days past the
    delivery reading: the request is stored, for the order's total, and the
    escrow stays held. *)
Theorem confirm_then_requestRefund (seller id : ObjectId) (w : World)
    (o1 : Order) (w1 : World) (reason : string)
    (description : option string) :
  confirmDelivery seller id w = (Ok o1, w1) →
  reason ≠ ""%string →
  time (clock w1) - time (clock w) ≤ 30 * Js.msPerDay →
  ∃ o2, (requestRefund (customerId o1) id reason description w1).1 = Ok o2
        ∧ e_status (escrow o2) = held
        ∧ isRefunded (refund o2) = false
        ∧ amount (refund o2) = Some (total (pricing o1))
        ∧ requestedAt (refund o2) = Some (time (tick (clock w1))).
Proof.
  intros H Hr Hclock.
  destruct (confirmDelivery_ok _ _ _ _ _ H)
    as (o & _ & _ & _ & Ho1 & _ & He & Hd & _).
  run_handler. rewrite (notEmpty_true _ Hr). cbn [negb].
  rewrite Ho1. cbv iota.
  rewrite (bool_decide_eq_true_2 _ eq_refl). cbn [negb].
  rewrite canRequestRefund_eval, Hd.
  rewrite (proj2 (Z.leb_le _ _) Hclock), (bool_decide_eq_true_2 _ He).
  cbn. eexists. split; [reflexivity|]. cbn. by rewrite ?He.
Qed.

Lemma confirm_then_requestRefund_witness :
  ∃ o1 w1 o2,
    confirmDelivery 10 1
      (Sample.with_order Sample.shipped_order Sample.default_env)
    = (Ok o1, w1)
    ∧ (requestRefund 7 1 "damaged" None w1).1 = Ok o2
    ∧ amount (refund o2) = Some 660.
Proof.
  destruct (confirmDelivery 10 1
              (Sample.with_order Sample.shipped_order Sample.default_env))
    as [[o1|st c] w1] eqn:E.
  - assert (customerId o1 = 7%N ∧ total (pricing o1) = 660
            ∧ time (clock w1) = Sample.jan15) as (Hc & Ht & Hw).
    { vm_compute in E. by injection E as <- <-. }
    destruct (confirm_then_requestRefund _ _ _ _ _ "damaged" None E)
      as (o2 & H2 & _ & _ & Ha & _).
    + discriminate.
    + rewrite Hw. by vm_compute.
    + exists o1, w1, o2. split; [reflexivity|].
      rewrite Hc in H2. rewrite Ht in Ha. by split.
  - vm_compute in E. discriminate E.
Defined.

(** What a successful [requestRefund] stored. *)
Lemma requestRefund_ok (user id : ObjectId) (reason : string)
    (description : option string) (w : World) (o1 : Order) (w1 : World) :
  requestRefund user id reason description w = (Ok o1, w1) →
  ∃ o, orders w !! id = Some o
       ∧ orders w1 !! id = Some o1
       ∧ customerId o1 = user
       ∧ status o1 = status o
       ∧ escrow o1 = escrow o
       ∧ e_status (escrow o) = held
       ∧ isRefunded (refund o1) = false
       ∧ is_Some (requestedAt (refund o1)).
Proof.
  run_handler. destruct (negb (notEmpty reason)); [done|].
  destruct (orders w !! id) as [o|] eqn:Ho; [|done].
  case_bool_decide as Hc; cbn [negb]; [|done].
  rewrite canRequestRefund_eval.
  destruct (deliveredAt (shipping o)); cbn; [|done].
  destruct (_ <=? _); cbn; [|done].
  case_bool_decide as He; cbn; [|done].
  intros [= <- <-]. exists o. cbn. rewrite lookup_insert_eq. eauto 10.
Qed.

(** X14.  A pending refund request does not hold the payment back: after a
    successful [requestRefund] on a delivered order the buyer's approval
    still succeeds, and the order ends released to the seller with the
    refund request still on it, unanswered. *)
Theorem requestRefund_then_approve (user id : ObjectId) (reason : string)
    (description : option string) (w : World) (o1 : Order) (w1 : World) :
  requestRefund user id reason description w = (Ok o1, w1) →
  status o1 = delivered →
  ∃ o2, (approveDelivery user id w1).1 = Ok o2
        ∧ e_status (escrow o2) = released_to_seller
        ∧ refund o2 = refund o1
        ∧ isRefunded (refund o2) = false
        ∧ is_Some (requestedAt (refund o2)).
Proof.
  intros H Hst.
  destruct (requestRefund_ok _ _ _ _ _ _ _ H)
    as (o & _ & Ho1 & Hc & _ & He & Hheld & Hnr & Hreq).
  run_handler. rewrite Ho1. cbv iota.
  rewrite (bool_decide_eq_true_2 _ Hc), Hst, He, Hheld. cbn [negb].
  rewrite !bool_decide_eq_false_2 by (intros ?; done).
  cbn. eexists. split; [reflexivity|]. done.
Qed.

Lemma requestRefund_then_approve_witness :
  ∃ o1 w1 o2,
    requestRefund 7 1 "damaged" None
      (Sample.with_order Sample.disputed_order Sample.default_env)
    = (Ok o1, w1)
    ∧ (approveDelivery 7 1 w1).1 = Ok o2
    ∧ e_status (escrow o2) = released_to_seller
    ∧ isRefunded (refund o2) = false.
Proof.
  destruct (requestRefund 7 1 "damaged" None
              (Sample.with_order Sample.disputed_order Sample.default_env))
    as [[o1|st c] w1] eqn:E.
  - assert (status o1 = delivered) as Hst.
    { vm_compute in E. by injection E as <- _. }
    destruct (requestRefund_then_approve _ _ _ _ _ _ _ E Hst)
      as (o2 & H2 & He & _ & Hr & _).
    by exists o1, w1, o2.
  - vm_compute in E. discriminate E.
Defined.

(** X11.  [confirmDelivery] does not look at the escrow.  A shipped order
    whose escrow an admin has already released or refunded is, on
    confirmation by its seller, delivered with the escrow back at [held];
    the release stamps of the earlier decision stay on the record. *)
Theorem confirmDelivery_reopens_escrow (seller id : ObjectId) (o : Order)
    (w : World) :
  orders w !! id = Some o →
  sellerId o = seller →
  status o = shipped →
  terminal (e_status (escrow o)) = true →
  autoReleaseAt (escrow o) = None →
  ESCROW_HOLD_DAYS (env w) = None →
  ∃ o', (confirmDelivery seller id w).1 = Ok o'
        ∧ e_status (escrow o') = held
        ∧ releasedAt (escrow o') = releasedAt (escrow o)
        ∧ releasedBy (escrow o') = releasedBy (escrow o)
        ∧ refund o' = refund o.
Proof.
  intros Ho Hs Hst _ Hauto Henv.
  run_handler. rewrite Ho. cbv iota.
  rewrite (bool_decide_eq_true_2 _ Hs), Hst. cbn [negb].
  rewrite bool_decide_eq_false_2 by (intros ?; done).
  cbn [status set_status set_shipping set_escrow escrow set_e_status
       autoReleaseAt].
  rewrite (bool_decide_eq_true_2 _ eq_refl), Hauto.
  rewrite bool_decide_eq_false_2 by (by intros [? ?]).
  cbn [negb andb env set_clock]. rewrite Henv. cbn [Js.env_or].
  rewrite setDate_number. cbn. eexists. split; [reflexivity|]. done.
Qed.

Lemma confirmDelivery_reopens_escrow_witness :
  let w1 := (resolveDispute 99 1 "refund the buyer" (Some 500) None
               (Sample.with_order Cases.shipped_disputed
                  Sample.default_env)).2 in
  Sample.escrow_of 1 w1 = Some refunded_to_customer
  ∧ ∃ o', (confirmDelivery 10 1 w1).1 = Ok o'
          ∧ e_status (escrow o') = held.
Proof.
  cbv zeta. split; [by vm_compute|].
  set (w1 := (resolveDispute 99 1 _ _ _ _).2).
  destruct (orders w1 !! 1%N) as [o|] eqn:Ho.
  - assert (sellerId o = 10%N ∧ status o = shipped
            ∧ terminal (e_status (escrow o)) = true
            ∧ autoReleaseAt (escrow o) = None) as (H1 & H2 & H3 & H4).
    { vm_compute in Ho. by injection Ho as <-. }
    destruct (confirmDelivery_reopens_escrow 10 1 o w1 Ho H1 H2 H3 H4
                eq_refl) as (o' & Hok & He & _).
    by exists o'.
  - vm_compute in Ho. discriminate Ho.
Defined.

(** ** The return window shown to the buyer *)

Lemma days_floor (a : Z) :
  Qfloor (inject_Z a / inject_Z (1000 * 60 * 60 * 24)) = a / Js.msPerDay.
Proof. symmetry. apply Zdiv_Qdiv. Qed.

Lemma getReturnWindow_eval (o : Order) (w : World) :
  getReturnWindow o w =
  match deliveredAt (shipping o) with
  | None => (Ok None, w)
  | Some d =>
      let left := Z.max 0 (30 - (time (clock w) - d) / Js.msPerDay) in
      (Ok (Some {| totalDays := 30; remainingDays := left;
                   expired := bool_decide (left = 0) |}),
       set_clock (tick (clock w)) w)
  end.
Proof.
  unfold getReturnWindow. destruct (deliveredAt (shipping o)); [|done].
  unfold bind, new_Date, ret. cbv beta iota zeta. by rewrite days_floor.
Qed.

(** X17.  For a delivered order with held escrow, read at one time: the
    window [getReturnWindow] shows counts whole days, between 0 and 30
    once the delivery is past, and is expired exactly from 30 full days
    on.  While it is not expired [canRequestRefund] holds; the two
    disagree only at the one instant of exactly 30 days, where the window
    is already expired and a refund can still be requested. *)
Theorem returnWindow_vs_canRequestRefund (o : Order) (w : World) (d : Z) :
  deliveredAt (shipping o) = Some d →
  e_status (escrow o) = held →
  ∃ rw can,
    (getReturnWindow o w).1 = Ok (Some rw)
    ∧ (canRequestRefund o w).1 = Ok can
    ∧ totalDays rw = 30
    ∧ (expired rw = true ↔ 30 * Js.msPerDay ≤ time (clock w) - d)
    ∧ (d ≤ time (clock w) → 0 ≤ remainingDays rw ≤ 30)
    ∧ (expired rw = false → can = true)
    ∧ (expired rw = true → can = true →
       time (clock w) - d = 30 * Js.msPerDay).
Proof.
  intros Hd He. rewrite getReturnWindow_eval, canRequestRefund_eval, Hd.
  cbv zeta. cbn [fst]. eexists _, _.
  split; [reflexivity|]. split; [reflexivity|]. cbn [totalDays expired
    remainingDays].
  rewrite (bool_decide_eq_true_2 _ He), andb_true_r.
  set (e := time (clock w) - d).
  assert (Hdiv : 30 ≤ e / Js.msPerDay ↔ 30 * Js.msPerDay ≤ e).
  { unfold Js.msPerDay. split; intros H.
    - pose proof (Z.mul_div_le e 86400000 ltac:(lia)). lia.
    - apply Z.div_le_lower_bound; lia. }
  assert (Hpos : d ≤ time (clock w) → 0 ≤ e / Js.msPerDay).
  { intros. apply Z.div_pos; unfold Js.msPerDay; lia. }
  split; [done|]. split.
  { rewrite bool_decide_eq_true. lia. }
  split; [intros H; specialize (Hpos H); lia|].
  split.
  - rewrite bool_decide_eq_false. intros H. apply Z.leb_le. lia.
  - rewrite bool_decide_eq_true, Z.leb_le. lia.
Qed.

Lemma returnWindow_vs_canRequestRefund_witness :
  ∃ rw,
    (getReturnWindow Sample.disputed_order
       (Sample.world ∅ ∅ ∅ (Sample.jan15 + 30 * Js.msPerDay)
          Sample.default_env)).1 = Ok (Some rw)
    ∧ expired rw = true
    ∧ (canRequestRefund Sample.disputed_order
         (Sample.world ∅ ∅ ∅ (Sample.jan15 + 30 * Js.msPerDay)
            Sample.default_env)).1 = Ok true.
Proof.
  destruct (returnWindow_vs_canRequestRefund Sample.disputed_order
              (Sample.world ∅ ∅ ∅ (Sample.jan15 + 30 * Js.msPerDay)
                 Sample.default_env) Sample.jan15 eq_refl eq_refl)
    as (rw & can & Hrw & Hcan & _ & Hexp & _).
  exists rw. split; [exact Hrw|]. split.
  - apply Hexp. by vm_compute.
  - rewrite Hcan. vm_compute in Hcan. by injection Hcan as <-.
Defined.

(** ** Pagination *)

Lemma totalPages_bounds (total limit : Z) :
  1 ≤ limit →
  (totalPages total limit - 1) * limit < total
  ∧ total ≤ totalPages total limit * limit.
Proof.
  intros Hl. unfold totalPages, Qceiling.
  assert ((- (inject_Z total / inject_Z limit) ==
           inject_Z (- total) / inject_Z limit)%Q) as ->.
  { rewrite inject_Z_opp. unfold Qdiv. ring. }
  rewrite <- Zdiv_Qdiv.
  pose proof (Z.mul_div_le (- total) limit ltac:(lia)).
  pose proof (Z.mul_succ_div_gt (- total) limit ltac:(lia)).
  nia.
Qed.

Lemma pages_take {A} (results : list A) (limit : Z) (k : nat) :
  1 ≤ limit →
  concat ((λ i : nat, page_of results (Z.of_nat i + 1) limit) <$> seq 0 k)
  = take (k * Z.to_nat limit) results.
Proof.
  intros Hl. induction k as [|k IH]; [done|].
  rewrite seq_S, fmap_app, concat_app, IH. cbn [fmap list_fmap concat].
  rewrite app_nil_r. unfold page_of, skip_of.
  replace (Z.to_nat ((Z.of_nat (0 + k) + 1 - 1) * limit))
    with (k * Z.to_nat limit)%nat by nia.
  rewrite take_take_drop. f_equal. lia.
Qed.

(** X18.  With a limit of at least 1, the pages 1 to [totalPages] of a
    result list, one after the other, are the list itself: every result is
    on exactly one page, in order.  No page is longer than the limit, and
    every page after [totalPages] is empty. *)
Theorem pages_cover {A} (results : list A) (limit : Z) :
  1 ≤ limit →
  concat ((λ p, page_of results p limit)
            <$> seqZ 1 (totalPages (Z.of_nat (length results)) limit))
  = results
  ∧ (∀ p, (length (page_of results p limit) ≤ Z.to_nat limit)%nat)
  ∧ (∀ p, totalPages (Z.of_nat (length results)) limit < p →
          page_of results p limit = []).
Proof.
  intros Hl.
  destruct (totalPages_bounds (Z.of_nat (length results)) limit Hl)
    as [Hlo Hhi].
  set (T := totalPages (Z.of_nat (length results)) limit) in *.
  split; [|split].
  - unfold seqZ. rewrite <- list_fmap_compose.
    rewrite (list_fmap_ext _
               (λ i : nat, page_of results (Z.of_nat i + 1) limit))
      by (intros; cbn; done).
    rewrite pages_take by done. apply take_ge. nia.
  - intros p. unfold page_of. rewrite length_take. lia.
  - intros p Hp. unfold page_of, skip_of.
    rewrite drop_ge; [by rewrite take_nil|]. nia.
Qed.

Lemma pages_cover_witness :
  concat ((λ p, page_of [1; 2; 3; 4; 5] p 2)
            <$> seqZ 1 (totalPages (Z.of_nat (length [1; 2; 3; 4; 5])) 2))
  = [1; 2; 3; 4; 5]
  ∧ totalPages 5 2 = 3.
Proof.
  split; [|by vm_compute].
  apply (pages_cover [1; 2; 3; 4; 5] 2). lia.
Defined.

(** * The verification gate *)

(** What a successful [updateVerification] was called on, and what it
    stored. *)
Lemma updateVerification_ok (admin id : ObjectId) (b : VerifyBody)
    (r : Registry) (s' : SellerDoc) (r' : Registry) :
  updateVerification admin id b r = (VOk s', r') →
  ∃ s u,
    sellerDocs r !! id = Some s
    ∧ users r !! sd_userId s = Some u
    ∧ sellerDocs r' = <[id := s']> (sellerDocs r)
    ∧ sd_verificationStatus s' = vb_status b
    ∧ sd_userId s' = sd_userId s
    ∧ (if decide (vb_status b = vs_verified) then
         sd_isActive s' = true
         ∧ verifiedBy s' = Some admin
         ∧ verifiedAt s' = Some (time (r_clock r))
         ∧ users r' = <[sd_userId s := reward u]> (users r)
       else
         users r' = users r
         ∧ verifiedAt s' = verifiedAt s
         ∧ trustBadges s' = trustBadges s
         ∧ sd_isActive s'
           = (if decide (vb_status b = vs_rejected) then false
              else sd_isActive s)).
Proof.
  unfold updateVerification.
  destruct (negb (validate_verification b)); [done|].
  destruct (sellerDocs r !! id) as [s|] eqn:Hs; [|done].
  destruct (notEmpty (or_empty (vb_notes b)));
  (destruct (users r !! sd_userId s) as [u|] eqn:Hu;
   [ destruct (decide (vb_status b = vs_verified)) as [Hv|Hv];
     [ rewrite (bool_decide_eq_true_2 _ Hv);
       rewrite decide_False by (rewrite Hv; done); cbv zeta;
       destruct (negb (valid_badges _)); cbn [andb]; [done|];
       intros [= <- <-]; exists s, u; cbn; by rewrite Hv
     | rewrite (bool_decide_eq_false_2 _ Hv); cbv zeta; cbn [andb];
       intros [= <- <-]; exists s, u; cbn;
       destruct (decide (vb_status b = vs_rejected)); by cbn ]
   | destruct (decide (vb_status b = vs_verified)); [done|]; cbv zeta;
     destruct (_ && _); done ]).
Qed.

(** X19.  Approval lets the seller's products through the item checks.
    Once [updateVerification] has answered 200 to a request with status
    verified, whatever the seller's status was before, a valid order for
    active, sufficiently stocked products of that seller passes the item
    loop of [createOrder] in every world that sees the stored seller; the
    order then stops at [save], like every other, with 500 and nothing
    stored or reserved. *)
Theorem verification_passes_item_checks (admin id : ObjectId)
    (b : VerifyBody) (r : Registry) (s' : SellerDoc) (r' : Registry)
    (w : World) (user : ObjectId) (body : CreateOrderBody)
    (oid : ObjectId) :
  updateVerification admin id b r = (VOk s', r') →
  vb_status b = vs_verified →
  sellers w !! id = seller_of <$> sellerDocs r' !! id →
  validate_createOrder body = true →
  Forall (λ it, ∃ p, products w !! r_productId it = Some p
                     ∧ p_sellerId p = id
                     ∧ p_status p = ps_active
                     ∧ r_quantity it ≤ p_stock p) (b_items body) →
  (∃ lines s, validate_items w (b_items body) [] 0 = Ok (lines, s))
  ∧ createOrder user body oid w
    = (Fail 500 INTERNAL_ERROR, after_new_Order w).
Proof.
  intros H Hv Hsee Hval Hits.
  destruct (updateVerification_ok _ _ _ _ _ _ H)
    as (s & u & _ & _ & Hr' & Hst & _ & Hcase).
  rewrite decide_True in Hcase by done. destruct Hcase as (Hact & _).
  rewrite Hr', lookup_insert_eq in Hsee. cbn in Hsee.
  assert (Forall (eligible w) (b_items body)) as Hel.
  { eapply Forall_impl; [exact Hits|].
    intros it (p & Hp & Hps & Hpa & Hq). exists p.
    split; [done|]. split; [done|]. split; [|done].
    exists (seller_of s'). rewrite Hps. split; [done|]. cbn.
    by rewrite Hst, Hv. }
  split; [apply (validate_items_eligible w _ Hel) |].
  by apply createOrder_valid_request.
Qed.

Lemma verification_passes_item_checks_witness :
  ∃ s' r',
    updateVerification 99 10 (Cases2.approve None) (Cases2.registry true)
    = (VOk s', r')
    ∧ (createOrder 7 (Sample.body [Sample.item 1 2]) 100
         (Cases2.market_of (Cases2.registry true))).1
      = Fail 400 PRODUCT_UNAVAILABLE
    ∧ (createOrder 7 (Sample.body [Sample.item 1 2]) 100
         (Cases2.market_of r')).1
      = Fail 500 INTERNAL_ERROR.
Proof.
  destruct (updateVerification 99 10 (Cases2.approve None)
              (Cases2.registry true)) as [[s'|st c] r'] eqn:E.
  - destruct (verification_passes_item_checks 99 10 _ _ s' r'
                (Cases2.market_of r') 7 (Sample.body [Sample.item 1 2]) 100
                E eq_refl) as (_ & Ho).
    + cbn. by rewrite lookup_fmap.
    + reflexivity.
    + constructor; [|constructor].
      exists (Sample.product 10 300 3). by vm_compute.
    + exists s', r'. split; [reflexivity|]. split; [by vm_compute|].
      by rewrite Ho.
  - vm_compute in E. discriminate E.
Defined.

(** X20.  Review and rejection close the gate.  Once [updateVerification]
    has answered 200 to a request with a status other than verified, even
    for a seller who was verified and active, every order that names a
    product of that seller is refused by [createOrder] with 400, in every
    world that sees the stored seller, and nothing changes. *)
Theorem verification_closes_gate (admin id : ObjectId) (b : VerifyBody)
    (r : Registry) (s' : SellerDoc) (r' : Registry) (w : World)
    (user : ObjectId) (body : CreateOrderBody) (oid : ObjectId)
    (it : ReqItem) (p : Product) :
  updateVerification admin id b r = (VOk s', r') →
  vb_status b ≠ vs_verified →
  sellers w !! id = seller_of <$> sellerDocs r' !! id →
  it ∈ b_items body →
  products w !! r_productId it = Some p →
  p_sellerId p = id →
  ∃ c, createOrder user body oid w = (Fail 400 c, w).
Proof.
  intros H Hv Hsee Hin Hp Hps.
  destruct (updateVerification_ok _ _ _ _ _ _ H)
    as (s & u & _ & _ & Hr' & Hst & _).
  rewrite Hr', lookup_insert_eq in Hsee. cbn in Hsee.
  assert (unavailable w it ∨ insufficient w it) as Hbad.
  { left. intros q Hq. rewrite Hp in Hq. injection Hq as <-. right.
    intros (sl & Hsl & Hver & _). rewrite Hps, Hsee in Hsl.
    injection Hsl as <-. cbn in Hver. congruence. }
  unfold createOrder.
  destruct (validate_createOrder body); cbn [negb]; [|by eexists].
  destruct (validate_items_fail w _ _ Hin Hbad [] 0) as (c & Hc & _).
  exists c. unfold bind, get_world. cbv beta iota. by rewrite Hc.
Qed.

Lemma verification_closes_gate_witness :
  ∃ s' r' c,
    updateVerification 99 10 Cases2.reject (Cases2.registry true)
    = (VOk s', r')
    ∧ createOrder 7 (Sample.body [Sample.item 1 2]) 100
        (Cases2.market_of r') = (Fail 400 c, Cases2.market_of r').
Proof.
  destruct (updateVerification 99 10 Cases2.reject (Cases2.registry true))
    as [[s'|st c] r'] eqn:E.
  - destruct (verification_closes_gate 99 10 _ _ s' r'
                (Cases2.market_of r') 7 (Sample.body [Sample.item 1 2]) 100
                (Sample.item 1 2) (Sample.product 10 300 3) E)
      as (c & Hc).
    + discriminate.
    + cbn. by rewrite lookup_fmap.
    + by apply list_elem_of_singleton.
    + by vm_compute.
    + reflexivity.
    + by exists s', r', c.
  - vm_compute in E. discriminate E.
Defined.

(** One accepted approval: the answer and the registry it leaves. *)
Lemma updateVerification_approves (admin id : ObjectId) (b : VerifyBody)
    (r : Registry) (s : SellerDoc) (u : User) :
  validate_verification b = true →
  vb_status b = vs_verified →
  valid_badges (default [] (badges_given b)) = true →
  sellerDocs r !! id = Some s →
  users r !! sd_userId s = Some u →
  ∃ s' r',
    updateVerification admin id b r = (VOk s', r')
    ∧ sellerDocs r' !! id = Some s'
    ∧ sd_userId s' = sd_userId s
    ∧ users r' !! sd_userId s = Some (reward u).
Proof.
  intros Hval Hv Hb Hs Hu. unfold updateVerification.
  rewrite Hval, Hs, Hu. cbn [negb].
  rewrite decide_True by done. rewrite (bool_decide_eq_true_2 _ Hv), Hb.
  rewrite decide_False by (rewrite Hv; done). cbv zeta. cbn [negb andb].
  eexists _, _. split; [reflexivity|].
  destruct (notEmpty _); cbn; by rewrite !lookup_insert_eq.
Qed.

(** X21.  Approval is not idempotent for the user's trust score: each
    accepted request with status verified adds 50, so [n] approvals of the
    same seller in a row leave the linked user [50 * n] above where it
    started, flagged as verified from the first on. *)
Theorem approvals_add_up (admin id : ObjectId) (b : VerifyBody)
    (r : Registry) (s : SellerDoc) (u : User) (n : nat) :
  validate_verification b = true →
  vb_status b = vs_verified →
  valid_badges (default [] (badges_given b)) = true →
  sellerDocs r !! id = Some s →
  users r !! sd_userId s = Some u →
  ∃ u', users (repeat_verification admin id b n r) !! sd_userId s = Some u'
        ∧ trustScore u' = trustScore u + 50 * Z.of_nat n
        ∧ (0 < n → u_isVerified u' = true)%nat.
Proof.
  intros Hval Hv Hb Hs Hu. unfold repeat_verification.
  assert (∃ s' u',
            sellerDocs (Nat.iter n
              (λ r', (updateVerification admin id b r').2) r) !! id = Some s'
            ∧ sd_userId s' = sd_userId s
            ∧ users (Nat.iter n
                (λ r', (updateVerification admin id b r').2) r)
              !! sd_userId s = Some u'
            ∧ trustScore u' = trustScore u + 50 * Z.of_nat n
            ∧ (0 < n → u_isVerified u' = true)%nat)
    as (s' & u' & _ & _ & H); [|by exists u'].
  induction n as [|n (s1 & u1 & Hs1 & Hid & Hu1 & Hscore & Hflag)].
  - exists s, u. cbn. repeat split; [done..|lia|lia].
  - rewrite !Nat.iter_succ. rewrite <- Hid in Hu1.
    destruct (updateVerification_approves admin id b _ s1 u1
                Hval Hv Hb Hs1 Hu1) as (s2 & r2 & Heq & Hs2 & Hid2 & Hu2).
    rewrite Heq. cbn [snd]. exists s2, (reward u1).
    rewrite Hid in Hid2, Hu2.
    split; [done|]. split; [done|]. split; [done|].
    split; [cbn; lia | done].
Qed.

Lemma approvals_add_up_witness :
  ∃ u', users (repeat_verification 99 10 (Cases2.approve None) 3
                 (Cases2.registry true)) !! 20%N = Some u'
        ∧ trustScore u' = 250.
Proof.
  destruct (approvals_add_up 99 10 (Cases2.approve None)
              (Cases2.registry true) Cases2.applicant
              {| trustScore := 100; u_isVerified := false |} 3
              eq_refl eq_refl eq_refl eq_refl eq_refl)
    as (u' & Hu' & Hscore & _).
  exists u'. split; [exact Hu'|]. rewrite Hscore. reflexivity.
Defined.

(** X22.  When the linked user is gone the answer is 500 either way, but
    what is stored differs: a request with status verified fails before
    [save] and leaves the seller documents as they were, while a request
    for review or rejection fails after [save], with the new status
    already stored. *)
Theorem updateVerification_user_gone (admin id : ObjectId) (b : VerifyBody)
    (r : Registry) (s : SellerDoc) :
  validate_verification b = true →
  sellerDocs r !! id = Some s →
  users r !! sd_userId s = None →
  (updateVerification admin id b r).1 = VFail 500 V_INTERNAL_ERROR
  ∧ users (updateVerification admin id b r).2 = users r
  ∧ if decide (vb_status b = vs_verified) then
      sellerDocs (updateVerification admin id b r).2 = sellerDocs r
    else
      sd_verificationStatus
        <$> sellerDocs (updateVerification admin id b r).2 !! id
      = Some (vb_status b).
Proof.
  intros Hval Hs Hu. unfold updateVerification.
  rewrite Hval, Hs, Hu. cbn [negb].
  destruct (decide (vb_status b = vs_verified)) as [Hv|Hv]; [done|].
  rewrite (bool_decide_eq_false_2 _ Hv). cbv zeta. cbn [andb fst snd].
  split; [done|].
  destruct (notEmpty _); cbn; rewrite lookup_insert_eq; cbn;
    (split; [done|]);
    by destruct (decide (vb_status b = vs_rejected)).
Qed.

Lemma updateVerification_user_gone_witness :
  (updateVerification 99 10 Cases2.reject (Cases2.registry false)).1
  = VFail 500 V_INTERNAL_ERROR
  ∧ sd_verificationStatus
      <$> sellerDocs (updateVerification 99 10 Cases2.reject
                        (Cases2.registry false)).2 !! 10%N
    = Some vs_rejected.
Proof.
  destruct (updateVerification_user_gone 99 10 Cases2.reject
              (Cases2.registry false) Cases2.applicant
              eq_refl eq_refl eq_refl) as (H1 & _ & H3).
  split; [exact H1 | exact H3].
Defined.

(** X23.  An approval that names a badge outside the schema's list is
    answered 500 and the seller is not stored as verified, yet the linked
    user has already received the 50 points and the verified flag. *)
Theorem updateVerification_bad_badge (admin id : ObjectId) (b : VerifyBody)
    (r : Registry) (s : SellerDoc) (u : User) :
  validate_verification b = true →
  vb_status b = vs_verified →
  valid_badges (default [] (badges_given b)) = false →
  sellerDocs r !! id = Some s →
  users r !! sd_userId s = Some u →
  (updateVerification admin id b r).1 = VFail 500 V_INTERNAL_ERROR
  ∧ sellerDocs (updateVerification admin id b r).2 = sellerDocs r
  ∧ users (updateVerification admin id b r).2 !! sd_userId s
    = Some (reward u).
Proof.
  intros Hval Hv Hb Hs Hu. unfold updateVerification.
  rewrite Hval, Hs, Hu. cbn [negb].
  rewrite decide_True by done. rewrite (bool_decide_eq_true_2 _ Hv), Hb.
  cbv zeta. cbn [negb andb fst snd].
  destruct (notEmpty _); cbn; by rewrite lookup_insert_eq.
Qed.

Lemma updateVerification_bad_badge_witness :
  (updateVerification 99 10 (Cases2.approve (Some ["gold_seller"%string]))
     (Cases2.registry true)).1 = VFail 500 V_INTERNAL_ERROR
  ∧ users (updateVerification 99 10
             (Cases2.approve (Some ["gold_seller"%string]))
             (Cases2.registry true)).2 !! 20%N
    = Some {| trustScore := 150; u_isVerified := true |}.
Proof.
  destruct (updateVerification_bad_badge 99 10
              (Cases2.approve (Some ["gold_seller"%string]))
              (Cases2.registry true) Cases2.applicant
              {| trustScore := 100; u_isVerified := false |}
              eq_refl eq_refl eq_refl eq_refl eq_refl) as (H1 & _ & H3).
  split; [exact H1 | exact H3].
Defined.

(** ** The admin's reading aids *)

Lemma length_filter_all {A} (P : A → Prop) `{!∀ x, Decision (P x)}
    (l : list A) :
  length (filter P l) = length l ↔ Forall P l.
Proof.
  induction l as [|x l IH]; [by split; [constructor|]|].
  rewrite filter_cons. pose proof (length_filter P l) as Hle.
  destruct (decide (P x)) as [Hx|Hx]; cbn.
  - rewrite Forall_cons. split.
    + intros [= Hlen]. split; [done | by apply IH].
    + intros [_ Hall]. f_equal. by apply IH.
  - split; [lia|]. intros [? _]%Forall_cons. done.
Qed.

(** X24.  In the verification checklist the approved documents are counted
    among the submitted ones, the two counts agree exactly when every
    submitted document is approved, and four documents are required of a
    brand, three of every other business type; the identity proof and the
    tax certificate are required of all. *)
Theorem checklist_counts (seller : SellerDoc) :
  let c := generateVerificationChecklist seller in
  (documents_approved c ≤ documents_submitted c)%nat
  ∧ (documents_approved c = documents_submitted c
     ↔ Forall (λ d, doc_status d = doc_approved) (documents seller))
  ∧ documents_required c
    = (if decide (businessType seller = brand) then 4 else 3)%nat
  ∧ identity_proof ∈ getRequiredDocuments (businessType seller)
  ∧ tax_certificate ∈ getRequiredDocuments (businessType seller).
Proof.
  cbv zeta. cbn [generateVerificationChecklist documents_approved
                 documents_submitted documents_required].
  split; [apply length_filter|]. split; [apply length_filter_all|].
  destruct (businessType seller); cbn; repeat split; set_solver.
Qed.

Lemma risk_counts (rf : RiskFactors) :
  length (filter (λ b, b = true) (entries rf).*2)
  = (Nat.b2n (newSeller rf) + Nat.b2n (incompleteProfile rf)
     + Nat.b2n (missingWebsite rf) + Nat.b2n (noSocialMedia rf))%nat
  ∧ length (filter (λ kv, kv.2 = true) (entries rf)).*1
    = (Nat.b2n (newSeller rf) + Nat.b2n (incompleteProfile rf)
       + Nat.b2n (missingWebsite rf) + Nat.b2n (noSocialMedia rf))%nat.
Proof. destruct rf as [[] [] [] []]; by vm_compute. Qed.

(** X25.  In a risk assessment the score is the number of factors listed,
    at most 4; the level is high from 3, medium at 2, low below; there is
    at most one recommendation per factor, plus one for a celebrity; and
    the seller gets no recommendation at all exactly when it is at least
    30 days old, has a year of establishment and a website and is no
    celebrity, whether or not it has a social media account. *)
Theorem riskAssessment_consistent (now_ : Z) (seller : SellerDoc) :
  let ra := generateRiskAssessment now_ seller in
  length (factors ra) = score ra
  ∧ (score ra ≤ 4)%nat
  ∧ (level ra = risk_high ↔ (3 ≤ score ra)%nat)
  ∧ (level ra = risk_medium ↔ score ra = 2%nat)
  ∧ (level ra = risk_low ↔ (score ra ≤ 1)%nat)
  ∧ (length (recommendations ra)
     ≤ score ra + (if decide (businessType seller = celebrity)
                   then 1 else 0))%nat
  ∧ (recommendations ra = []
     ↔ 30 * Js.msPerDay ≤ now_ - sd_createdAt seller
       ∧ truthy_number (establishedYear (businessInfo seller)) = true
       ∧ truthy_string (website (businessInfo seller)) = true
       ∧ businessType seller ≠ celebrity).
Proof.
  cbv zeta. unfold generateRiskAssessment.
  cbn [score level factors recommendations].
  destruct (risk_counts (riskFactors_of now_ seller)) as [-> ->].
  unfold generateRecommendations, riskFactors_of.
  cbn [newSeller incompleteProfile missingWebsite noSocialMedia].
  change (30 * 24 * 60 * 60 * 1000) with (30 * Js.msPerDay).
  destruct (Z.ltb_spec (now_ - sd_createdAt seller) (30 * Js.msPerDay));
    destruct (truthy_number _); destruct (truthy_string (website _));
    destruct (_ || _);
    destruct (decide (businessType seller = celebrity));
    cbn [negb Nat.b2n Nat.add app length];
    repeat split; intros; repeat case_decide; destruct_and?;
    try done; try lia.
Qed.

(** * Instances of the lemmas on delivery and approval *)

Lemma confirmDelivery_default_witness :
  ∃ o', (confirmDelivery 10 1 Cases.ticking).1 = Ok o'
        ∧ deliveredAt (shipping o') = Some Sample.jan15
        ∧ autoReleaseAt (escrow o')
          = Some (Sample.jan15 + 5 + 7 * Js.msPerDay).
Proof.
  assert (orders Cases.ticking !! 1%N = Some Sample.shipped_order) as Ho
    by (by vm_compute).
  destruct (confirmDelivery_default 10 1 Sample.shipped_order Cases.ticking
              Ho eq_refl eq_refl eq_refl eq_refl)
    as (o' & Heq & _ & Hd & _ & _ & Ha).
  exists o'. split; [by rewrite Heq|]. split; [exact Hd|].
  exact (Ha eq_refl).
Defined.

Lemma confirmDelivery_keeps_deadline_witness :
  ∃ o', orders (confirmDelivery 10 1
                  (Sample.with_order Cases.shipped_with_deadline
                     Sample.configured_env)).2 !! 1%N = Some o'
        ∧ autoReleaseAt (escrow o') = Some 42.
Proof.
  apply (confirmDelivery_keeps_deadline 10 1 Cases.shipped_with_deadline).
  - by vm_compute.
  - reflexivity.
Defined.

Lemma approveDelivery_once_witness :
  ∃ st c,
    approveDelivery 7 1
      (approveDelivery 7 1
         (Sample.with_order Sample.disputed_order Sample.default_env)).2
    = (Fail st c,
       (approveDelivery 7 1
          (Sample.with_order Sample.disputed_order Sample.default_env)).2).
Proof.
  apply (approveDelivery_once 7 1 Sample.disputed_order
           (Sample.with_order Sample.disputed_order Sample.default_env));
    by vm_compute.
Defined.

Lemma resolveDispute_then_approve_witness :
  ∃ st c,
    approveDelivery 7 1
      (resolveDispute 99 1 "seller is right" None None
         (Sample.with_order Sample.disputed_order Sample.default_env)).2
    = (Fail st c,
       (resolveDispute 99 1 "seller is right" None None
          (Sample.with_order Sample.disputed_order Sample.default_env)).2).
Proof.
  apply (resolveDispute_then_approve 99 7 1 "seller is right" None None
           Sample.disputed_order
           (Sample.with_order Sample.disputed_order Sample.default_env));
    by vm_compute.
Defined.
